(** * CoatDoctor worker: a shallow embedding of [src/index.ts]

    The worker diagnoses coating defects from a free-text description.  This
    development embeds the knowledge base, the keyword fallback scorer, the
    vector-index lookup, the rationale call and the five route handlers, with
    the external services (Workers AI, Vectorize, R2) as oracles of the [Env]
    record whose calls are logged in a trace, and with thrown errors made
    explicit. *)

From Stdlib Require Import List ZArith NArith Bool String Ascii Lia.
From Stdlib Require Import DecimalString Permutation Sorted.
Import ListNotations.

Set Implicit Arguments.

(** ** JavaScript strings

    A JavaScript string is a sequence of UTF-16 code units; [length],
    [includes], [slice], [trim] and [===] all work on code units. *)

Module JsString.

Definition jsstring := list N.

(** Source literals are written as Rocq strings (UTF-8 bytes) and decoded to
    code units; [need] counts the continuation bytes still expected and [acc]
    holds the bits of the code point read so far. *)
Definition emit (cp : N) : jsstring :=
  if (cp <? 65536)%N then [cp]
  else
    let v := (cp - 65536)%N in
    [(55296 + N.shiftr v 10)%N; (56320 + N.land v 1023)%N].

Fixpoint utf8 (acc : N) (need : nat) (bs : list N) : jsstring :=
  match bs with
  | [] => []
  | b :: rest =>
      match need with
      | O =>
          if (b <? 128)%N then b :: utf8 0%N O rest
          else if (b <? 224)%N then utf8 (N.land b 31) 1 rest
          else if (b <? 240)%N then utf8 (N.land b 15) 2 rest
          else utf8 (N.land b 7) 3 rest
      | S O => emit (acc * 64 + N.land b 63)%N ++ utf8 0%N O rest
      | S n => utf8 (acc * 64 + N.land b 63)%N n rest
      end
  end.

Definition js (s : string) : jsstring :=
  utf8 0%N O (map N_of_ascii (list_ascii_of_string s)).

Definition eqb (a b : jsstring) : bool :=
  if list_eq_dec N.eq_dec a b then true else false.

(** A string is falsy exactly when it is empty. *)
Definition truthy (s : jsstring) : bool :=
  match s with [] => false | _ => true end.

(** [a || b] on strings. *)
Definition orElse (a b : jsstring) : jsstring :=
  if truthy a then a else b.

Fixpoint startsWith (s prefix : jsstring) : bool :=
  match prefix, s with
  | [], _ => true
  | _ :: _, [] => false
  | p :: ps, c :: cs => (c =? p)%N && startsWith cs ps
  end.

(** [String.prototype.includes]: some suffix of [s] starts with [needle]. *)
Fixpoint includes (s needle : jsstring) : bool :=
  startsWith s needle
  || match s with
     | [] => false
     | _ :: cs => includes cs needle
     end.

(** [slice(0, n)]. *)
Definition slice0 (n : nat) (s : jsstring) : jsstring := firstn n s.

(** ECMAScript WhiteSpace and LineTerminator code points, all of them in the
    basic plane: what [trim] removes. *)
Definition isWhiteSpace (c : N) : bool :=
  ((9 <=? c) && (c <=? 13) || (c =? 32) || (c =? 160) || (c =? 5760)
   || (8192 <=? c) && (c <=? 8202) || (c =? 8232) || (c =? 8233)
   || (c =? 8239) || (c =? 8287) || (c =? 12288) || (c =? 65279))%N.

Fixpoint trimStart (s : jsstring) : jsstring :=
  match s with
  | c :: cs => if isWhiteSpace c then trimStart cs else s
  | [] => []
  end.

Definition trimEnd (s : jsstring) : jsstring := rev (trimStart (rev s)).

Definition trim (s : jsstring) : jsstring := trimEnd (trimStart s).

(** Lower-casing restricted to ASCII letters.  [String.prototype.toLowerCase]
    agrees with it on every string made of ASCII code units only. *)
Definition isAscii (s : jsstring) : bool := forallb (fun c => (c <? 128)%N) s.

Definition asciiLowerUnit (c : N) : N :=
  if ((65 <=? c) && (c <=? 90))%N then (c + 32)%N else c.

Definition asciiLower (s : jsstring) : jsstring := map asciiLowerUnit s.

(** Decimal rendering of an integer, as template literals render it. *)
Definition ofZ (z : Z) : jsstring :=
  js (NilZero.string_of_int (Z.to_int z)).

Definition ofN (n : N) : jsstring := ofZ (Z.of_N n).

End JsString.
Export JsString.

(** ** Small utilities (lines 29-49) *)

(** [(x ?? "")]: a missing or null field reads as the empty string. *)
Definition orEmpty (x : option jsstring) : jsstring :=
  match x with Some s => s | None => [] end.

(** The character class [[\w.\-]] of [sanitizeFileName]. *)
Definition isFileNameUnit (c : N) : bool :=
  ((48 <=? c) && (c <=? 57) || (65 <=? c) && (c <=? 90)
   || (97 <=? c) && (c <=? 122) || (c =? 95) || (c =? 46) || (c =? 45))%N.

(** [replace(/[^\w.\-]+/g, "_")]: every maximal run of other code units
    becomes one underscore; [inRun] says the previous unit was replaced. *)
Fixpoint replaceRuns (inRun : bool) (s : jsstring) : jsstring :=
  match s with
  | [] => []
  | c :: cs =>
      if isFileNameUnit c then c :: replaceRuns false cs
      else if inRun then replaceRuns true cs
      else 95%N :: replaceRuns true cs
  end.

Definition sanitizeFileName (name : jsstring) : jsstring :=
  slice0 160 (replaceRuns false name).

(** [indexOf(",")] followed by [slice(i + 1)]. *)
Fixpoint afterFirstComma (s : jsstring) : option jsstring :=
  match s with
  | [] => None
  | c :: cs => if (c =? 44)%N then Some cs else afterFirstComma cs
  end.

Definition stripDataUrlPrefix (dataUrl : jsstring) : jsstring :=
  if truthy dataUrl then
    match afterFirstComma dataUrl with
    | Some rest => rest
    | None => dataUrl
    end
  else [].

(** ** Knowledge base (lines 53-158) *)

Inductive Severity := Low | Medium | High.

Definition severityString (s : Severity) : jsstring :=
  match s with
  | Low => js "Low"
  | Medium => js "Medium"
  | High => js "High"
  end.

Record SopEntry := {
  code : jsstring;
  name : jsstring;
  severity : Severity;
  text : jsstring;
  root_causes : list jsstring;
  corrective_actions : list jsstring
}.

Definition KB_CD001_OP : SopEntry :=
  {| code := js "CD001-OP";
     name := js "Orange peel – textured surface";
     severity := Medium;
     text :=
       js "Uneven, orange-skin texture of the coating film. Usually linked to viscosity/leveling, excessive wet film, and overly aggressive early drying (skinning).";
     root_causes :=
       [ js "Viscosity outside process window (too high → poor leveling)";
         js "Excess wet film thickness (especially at head)";
         js "Aggressive early drying (IR/hot air) causing skinning";
         js "Insufficient airflow / uneven leveling time" ];
     corrective_actions :=
       [ js "Adjust viscosity to SOP DIN-4 window and re-check leveling";
         js "Reduce wet film thickness; verify application weight";
         js "Soften first zone drying; avoid premature skinning";
         js "Balance airflow; run structured speed/viscosity tests" ] |}.

Definition KB_CD002_PH : SopEntry :=
  {| code := js "CD002-PH";
     name := js "Pinholes / small craters";
     severity := High;
     text :=
       js "Small holes/craters after baking; typically contamination, trapped volatiles or foam from turbulent mixing/pumping.";
     root_causes :=
       [ js "Air entrainment/turbulent mixing causing micro-bubbles";
         js "Surface contamination (oil/silicone) at substrate/rollers";
         js "Solvent balance → too fast surface evaporation traps volatiles";
         js "Humidity peaks / dirty environment" ];
     corrective_actions :=
       [ js "Degas lacquer; avoid turbulent mixing/pumping; check pump setup";
         js "Clean substrate, rollers and environment thoroughly";
         js "Adjust solvent balance/oven; slower initial evaporation profile";
         js "Compare lab bake vs line to isolate process vs formulation" ] |}.

Definition KB_CD003_LN : SopEntry :=
  {| code := js "CD003-LN";
     name := js "Streaks / lines";
     severity := Medium;
     text :=
       js "Linear defects tied to doctor blade or roller condition; mechanical inspection and alignment are key.";
     root_causes :=
       [ js "Doctor blade wear/damage or incorrect pressure";
         js "Roller damage/mapping correlating with repeat length";
         js "Flow/viscosity imbalance amplifying mechanical marks" ];
     corrective_actions :=
       [ js "Inspect/replace blade; set correct pressure and alignment";
         js "Map rollers vs defect repeat; regrind/replace if needed";
         js "Cross-check viscosity/flow; run elimination tests" ] |}.

Definition KB_CD004_AD : SopEntry :=
  {| code := js "CD004-AD";
     name := js "Poor adhesion / flaking";
     severity := High;
     text :=
       js "Loss of adhesion between layers; check pretreatment, cure of previous coats and mixing/hardener ratio.";
     root_causes :=
       [ js "Pre-treatment off-spec (washing/chemistry)";
         js "Under-bake of previous layer or extreme over-bake";
         js "Incorrect hardener ratio / exceeded pot life";
         js "Surface contamination (oil/silicone)" ];
     corrective_actions :=
       [ js "Verify pretreatment parameters + documentation";
         js "Check oven curve; correct under/over-bake scenarios";
         js "Validate hardener ratio/pot life; mix fresh batch";
         js "Perform tape test per SOP; ensure cleanliness" ] |}.

Definition KB_CD005_STK : SopEntry :=
  {| code := js "CD005-STK";
     name := js "Sticking after side print";
     severity := Medium;
     text :=
       js "Blocking of side-printed sheets/caps; cooling/stack rules and film build management are central.";
     root_causes :=
       [ js "Insufficient cooling and improper stack management";
         js "Film build too high causing blocking";
         js "Crosslinker/lacquer batch sensitivity" ];
     corrective_actions :=
       [ js "Improve cooling; enforce stack height rules";
         js "Run small batch + lab oven tests to compare line vs lab";
         js "Evaluate crosslinker/lacquer batch; adjust formulation window" ] |}.

Definition KB : list SopEntry :=
  [ KB_CD001_OP; KB_CD002_PH; KB_CD003_LN; KB_CD004_AD; KB_CD005_STK ].

(** [KB.find(e => e.code === code)]: the first entry with that code. *)
Definition findSop (c : jsstring) : option SopEntry :=
  find (fun e => eqb (code e) c) KB.

(** ** Thrown errors and the trace of external calls

    An awaited call either yields a value or throws; an error is kept as the
    message the router prints with [String(err?.message ?? err)]. *)

Inductive Result (A : Type) :=
| Ok (a : A)
| Throw (message : jsstring).
Arguments Throw {A} message.

(** A number produced by an external service (an embedding coordinate, a
    similarity).  The worker never computes with these: it hands them on, so
    they are carried as the text they have in JSON. *)
Definition ExternalNumber := jsstring.

Definition Vector := list ExternalNumber.

(** [score] of a match: the integer count of the keyword fallback, or the
    similarity reported by the index. *)
Inductive Score :=
| Count (n : Z)
| Similarity (x : ExternalNumber).

(** The object literal built at lines 227-232 and at line 285. *)
Record MatchCandidate := {
  mc_code : jsstring;
  mc_name : jsstring;
  mc_severity : jsstring;
  mc_score : Score
}.

(** Metadata stored with a vector; each field may be absent. *)
Record Metadata := {
  md_code : option jsstring;
  md_name : option jsstring;
  md_severity : option jsstring
}.

Record VectorizeMatch := {
  vm_id : jsstring;
  vm_score : ExternalNumber;
  vm_metadata : option Metadata
}.

(** What [query] resolves to: [results] may be null and [matches] absent. *)
Record QueryResult := { matches : option (list VectorizeMatch) }.

(** One element of the upsert payload (lines 198-206). *)
Record VectorRecord := {
  vr_id : jsstring;
  vr_values : Vector;
  vr_metadata : Metadata
}.

Inductive Event :=
| AI_embed (texts : list jsstring)
| AI_llm (description : jsstring) (m : MatchCandidate)
| Vectorize_query (vec : Vector)
| Vectorize_upsert (payload : list VectorRecord)
| R2_put (key : jsstring) (bytes : list N) (contentType : jsstring).

(** A computation: the external calls it made, in order, and how it ended. *)
Definition M (A : Type) : Type := (list Event * Result A)%type.

Definition ret {A} (a : A) : M A := ([], Ok a).

Definition throw {A} (message : jsstring) : M A := ([], Throw message).

Definition bind {A B} (m : M A) (f : A -> M B) : M B :=
  match m with
  | (t, Ok a) => let (t', r) := f a in (t ++ t', r)
  | (t, Throw e) => (t, Throw e)
  end.

(** [try { m } catch (err) { h err }]. *)
Definition tryCatch {A} (m : M A) (h : jsstring -> M A) : M A :=
  match m with
  | (t, Ok a) => (t, Ok a)
  | (t, Throw e) => let (t', r) := h e in (t ++ t', r)
  end.

(** An awaited call on a binding: logged, then its outcome. *)
Definition call {A} (ev : Event) (outcome : Result A) : M A := ([ev], outcome).

Notation "x <- m ;; k" := (bind m (fun x => k))
  (at level 61, m at next level, right associativity).

(** ** Bindings (lines 6-10)

    [AI.run] is used with two models; each is an oracle.  A null answer or a
    missing field is [None]. *)

Record Ai := {
  run_embedding : list jsstring -> Result (option (list Vector));
  run_llm : jsstring -> MatchCandidate -> Result (option jsstring)
}.

Record VectorizeIndex := {
  query : Vector -> Result (option QueryResult);
  upsert : list VectorRecord -> Result (option jsstring)
}.

Record R2Bucket := {
  put : jsstring -> list N -> jsstring -> Result unit
}.

(** The two optional bindings are tested for presence before use. *)
Record Env := {
  AI : Ai;
  DEFECT_IMAGES : option R2Bucket;
  VECTORIZE_INDEX : option VectorizeIndex
}.

(** ** Requests and responses *)

(** A parsed JSON body, read through its fields only.  A field holds a
    string; [None] is a field that is missing or null.  Fields holding other
    JSON values are outside this model. *)
Record Body := {
  description : option jsstring;
  image_base64 : option jsstring;
  filename : option jsstring;
  message : option jsstring;
  contentType : option jsstring;
  data : option jsstring
}.

Definition emptyBody : Body :=
  {| description := None; image_base64 := None; filename := None;
     message := None; contentType := None; data := None |}.

(** [request.json()] fails on malformed JSON; a body that parses to a falsy
    value is rejected by the same [!body] test, so both are [None]. *)
Record Request := {
  method : jsstring;
  pathname : jsstring;
  json_body : option Body
}.

(** The [defect] object of the analyze response (lines 295-301). *)
Record Defect := {
  d_code : jsstring;
  d_name : jsstring;
  d_severity : Severity;
  d_root_causes : list jsstring;
  d_corrective_actions : list jsstring
}.

Inductive ResponseBody :=
| Health (service : jsstring)
| Seeded (mutationId : option jsstring)
| Analysis (image_key : option jsstring) (best_match : MatchCandidate)
           (defect : Defect) (rationale : jsstring)
| Reply (reply : jsstring)
| Uploaded (key : jsstring)
| OkFalse (error : jsstring)
| ErrorOnly (error : jsstring)
| PlainText (content : jsstring)
| NoContent.

Record Response := {
  status : Z;
  body : ResponseBody
}.

(** [json(obj, status = 200)]. *)
Definition json (obj : ResponseBody) (st : Z) : Response :=
  {| status := st; body := obj |}.

Definition readJsonSafe (request : Request) : option Body := json_body request.

(** ** [Array.prototype.sort]

    The sort is stable (ECMAScript 2019): elements that compare equal keep
    their order.  It is computed here by inserting each element, from the
    last to the first, in front of the first element it does not have to
    follow. *)

Section Sort.

Variable A : Type.
Variable compareFn : A -> A -> Z.

Fixpoint insertSorted (x : A) (l : list A) : list A :=
  match l with
  | [] => [x]
  | y :: ys =>
      if (compareFn x y <=? 0)%Z then x :: y :: ys
      else y :: insertSorted x ys
  end.

Definition sort (l : list A) : list A := fold_right insertSorted [] l.

End Sort.

(** ** Runtime built-ins used as instances

    [atob] follows the forgiving-base64 decoding of the HTML standard: ASCII
    whitespace is dropped, up to two padding signs are removed when the
    length is a multiple of four, a length of 1 modulo 4 or a unit outside
    the alphabet is an error, and left-over bits are discarded. *)

Definition isAsciiSpace (c : N) : bool :=
  ((c =? 9) || (c =? 10) || (c =? 12) || (c =? 13) || (c =? 32))%N.

Definition base64Value (c : N) : option N :=
  if ((65 <=? c) && (c <=? 90))%N then Some (c - 65)%N
  else if ((97 <=? c) && (c <=? 122))%N then Some (c - 71)%N
  else if ((48 <=? c) && (c <=? 57))%N then Some (c + 4)%N
  else if (c =? 43)%N then Some 62%N
  else if (c =? 47)%N then Some 63%N
  else None.

Fixpoint base64Values (s : jsstring) : option (list N) :=
  match s with
  | [] => Some []
  | c :: cs =>
      match base64Value c, base64Values cs with
      | Some v, Some vs => Some (v :: vs)
      | _, _ => None
      end
  end.

Fixpoint base64Bytes (vs : list N) : list N :=
  match vs with
  | a :: b :: c :: d :: rest =>
      (a * 4 + b / 16)%N :: ((b mod 16) * 16 + c / 4)%N
        :: ((c mod 4) * 64 + d)%N :: base64Bytes rest
  | [a; b; c] => [(a * 4 + b / 16)%N; ((b mod 16) * 16 + c / 4)%N]
  | [a; b] => [(a * 4 + b / 16)%N]
  | _ => []
  end.

Definition dropPadding (s : jsstring) : jsstring :=
  if (List.length s mod 4 =? 0)%nat then
    match rev s with
    | 61%N :: 61%N :: r => rev r
    | 61%N :: r => rev r
    | _ => s
    end
  else s.

Definition forgivingBase64Decode (s : jsstring) : option jsstring :=
  let d := dropPadding (filter (fun c => negb (isAsciiSpace c)) s) in
  if (List.length d mod 4 =? 1)%nat then None
  else option_map base64Bytes (base64Values d).

(** ** Sample bindings *)

Definition sampleVector : Vector := [js "0.12"; js "-0.07"; js "0.33"].

Definition workingAi : Ai :=
  {| run_embedding := fun texts => Ok (Some (map (fun _ => sampleVector) texts));
     run_llm := fun _ _ => Ok (Some (js "Check viscosity and leveling first.")) |}.

Definition embeddingDownAi : Ai :=
  {| run_embedding := fun _ => Throw (js "embedding service unavailable");
     run_llm := fun _ _ => Ok (Some (js "Check viscosity and leveling first.")) |}.

Definition llmDownAi : Ai :=
  {| run_embedding := fun texts => Ok (Some (map (fun _ => sampleVector) texts));
     run_llm := fun _ _ => Throw (js "model timed out") |}.

Definition silentLlmAi : Ai :=
  {| run_embedding := fun texts => Ok (Some (map (fun _ => sampleVector) texts));
     run_llm := fun _ _ => Ok None |}.

Definition indexAnswering (ms : list VectorizeMatch) : VectorizeIndex :=
  {| query := fun _ => Ok (Some {| matches := Some ms |});
     upsert := fun _ => Ok (Some (js "mutation-1")) |}.

Definition queryDownIndex : VectorizeIndex :=
  {| query := fun _ => Throw (js "vector index timed out");
     upsert := fun _ => Ok (Some (js "mutation-1")) |}.

(** A match left in the index by an earlier catalog: its code is not in
    [KB]. *)
Definition staleMatch : VectorizeMatch :=
  {| vm_id := js "CD999-XX";
     vm_score := js "0.91";
     vm_metadata :=
       Some {| md_code := Some (js "CD999-XX");
               md_name := Some (js "Blistering");
               md_severity := Some (js "High") |} |}.

Definition workingBucket : R2Bucket := {| put := fun _ _ _ => Ok tt |}.

Definition envNoIndex (ai : Ai) : Env :=
  {| AI := ai; DEFECT_IMAGES := Some workingBucket; VECTORIZE_INDEX := None |}.

Definition envWithIndex (ai : Ai) (index : VectorizeIndex) : Env :=
  {| AI := ai; DEFECT_IMAGES := Some workingBucket;
     VECTORIZE_INDEX := Some index |}.

Definition post (path : string) (b : Body) : Request :=
  {| method := js "POST"; pathname := js path; json_body := Some b |}.

Definition describing (d : string) : Body :=
  {| description := Some (js d); image_base64 := None; filename := None;
     message := None; contentType := None; data := None |}.

Definition withImage (b : Body) (img : option jsstring) : Body :=
  {| description := description b; image_base64 := img;
     filename := filename b; message := message b;
     contentType := contentType b; data := data b |}.

Definition saying (m : string) : Body :=
  {| description := None; image_base64 := None; filename := None;
     message := Some (js m); contentType := None; data := None |}.

(** ** The worker *)

Record ScoredEntry := {
  entry : SopEntry;
  score : Z
}.

(** [ToNumber] of a boolean operand of [+]. *)
Definition boolToNumber (b : bool) : Z := if b then 1%Z else 0%Z.

(** What reading a property of [undefined] throws. *)
Definition typeError : jsstring :=
  js "Cannot read properties of undefined".

Definition nl : jsstring := [10%N].

(** The object literal of line 285. *)
Definition candidateOf (top : SopEntry) (n : Z) : MatchCandidate :=
  {| mc_code := code top;
     mc_name := name top;
     mc_severity := severityString (severity top);
     mc_score := Count n |}.

Section Worker.

(** [String.prototype.toLowerCase], [atob] and the reading of [Date.now()]
    belong to the runtime.  [atob] answers [None] when it throws. *)
Variable toLowerCase : jsstring -> jsstring.
Variable atob : jsstring -> option jsstring.
Variable Date_now : N.

(** Lines 44-49.  A [Uint8Array] element keeps the low eight bits. *)
Definition decodeBase64ToBytes (base64 : jsstring) : option (list N) :=
  option_map (map (fun c => (c mod 256)%N)) (atob base64).

(** *** Workers AI helpers (lines 163-187) *)

Definition embedTexts (env : Env) (texts : list jsstring) : M (list Vector) :=
  res <- call (AI_embed texts) (run_embedding (AI env) texts) ;;
  ret (match res with Some d => d | None => [] end).

Definition llmRationale (env : Env) (description : jsstring)
    (m : MatchCandidate) : M jsstring :=
  resp <- call (AI_llm description m) (run_llm (AI env) description m) ;;
  ret (orEmpty resp).

(** *** Vectorize helpers (lines 192-233) *)

(** [vecs.map((values, i) => ...)] reads [KB[i]]; beyond the catalog that is
    [undefined] and reading its [code] throws. *)
Fixpoint seedPayload (vecs : list Vector) (kb : list SopEntry)
    : Result (list VectorRecord) :=
  match vecs with
  | [] => Ok []
  | values :: vs =>
      match kb with
      | [] => Throw typeError
      | k :: ks =>
          match seedPayload vs ks with
          | Ok p =>
              Ok ({| vr_id := code k;
                     vr_values := values;
                     vr_metadata :=
                       {| md_code := Some (code k);
                          md_name := Some (name k);
                          md_severity := Some (severityString (severity k)) |}
                  |} :: p)
          | Throw e => Throw e
          end
      end
  end.

Definition seedKBIntoVectorize (env : Env) : M (option jsstring) :=
  match VECTORIZE_INDEX env with
  | None => ret None
  | Some index =>
      vecs <- embedTexts env (map text KB) ;;
      payload <- ([], seedPayload vecs KB) ;;
      call (Vectorize_upsert payload) (upsert index payload)
  end.

(** [results?.matches?.[0]]. *)
Definition firstMatch (results : option QueryResult) : option VectorizeMatch :=
  match results with
  | Some {| matches := Some (best :: _) |} => Some best
  | _ => None
  end.

Definition metadataField (f : Metadata -> option jsstring)
    (best : VectorizeMatch) : option jsstring :=
  match vm_metadata best with
  | Some md => f md
  | None => None
  end.

Definition vectorizeMatch (env : Env) (description : jsstring)
    : M (option MatchCandidate) :=
  match VECTORIZE_INDEX env with
  | None => ret None
  | Some index =>
      vecs <- embedTexts env [description] ;;
      match vecs with
      | [] => ret None
      | vec :: _ =>
          results <- call (Vectorize_query vec) (query index vec) ;;
          match firstMatch results with
          | None => ret None
          | Some best =>
              ret (Some
                {| mc_code :=
                     match metadataField md_code best with
                     | Some c => c
                     | None => vm_id best
                     end;
                   mc_name := orEmpty (metadataField md_name best);
                   mc_severity :=
                     match metadataField md_severity best with
                     | Some s => s
                     | None => js "Medium"
                     end;
                   mc_score := Similarity (vm_score best) |})
          end
      end
  end.

(** *** Keyword fallback (lines 275-285) *)

(** The expression of lines 279-281 as JavaScript parses it.  [+] binds
    tighter than [?:], so the first parenthesis plus the boolean of the second
    is the condition of one conditional whose else-branch is [0 +] the third
    parenthesis. *)
Definition fallbackScore (t : jsstring) (e : SopEntry) : Z :=
  let first :=
    if includes (toLowerCase (text e)) (js "orange")
       && includes t (js "orange peel")
    then 2%Z else 0%Z in
  let second :=
    includes (toLowerCase (text e)) (js "pinhole")
    && (includes t (js "pinholes") || includes t (js "crater")) in
  if negb (first + boolToNumber second =? 0)%Z then 2%Z
  else
    (0 + (if includes t (js "adhesion") || includes t (js "tape test")
          then (if eqb (code e) (js "CD004-AD") then 2 else 0)
          else 0))%Z.

(** [KB.map(...)] followed by [scored.sort((a, b) => b.score - a.score)]. *)
Definition rankKB (t : jsstring) : list ScoredEntry :=
  sort (fun a b => (score b - score a)%Z)
       (map (fun e => {| entry := e; score := fallbackScore t e |}) KB).

Definition keywordFallback (description : jsstring) : Result MatchCandidate :=
  let t := toLowerCase description in
  let scored := rankKB t in
  let top :=
    match scored with
    | s :: _ => Some (entry s)
    | [] => nth_error KB 0
    end in
  match top with
  | Some top =>
      Ok (candidateOf top (match scored with s :: _ => score s | [] => 0%Z end))
  | None => Throw typeError
  end.

(** *** Route handlers (lines 237-366) *)

Definition handleHealth : M Response :=
  ret (json (Health (js "coatdoctor-worker")) 200).

Definition handleSeed (env : Env) : M Response :=
  match VECTORIZE_INDEX env with
  | None => ret (json (OkFalse (js "VECTORIZE_INDEX binding missing")) 500)
  | Some _ =>
      mutationId <- seedKBIntoVectorize env ;;
      ret (json (Seeded mutationId) 200)
  end.

(** Lines 256-268.  [image_key] is assigned before the [put]; the [catch]
    swallows a failure of the decoding (key still null) and of the [put]
    (key already assigned). *)
Definition storeImage (env : Env) (image_b64 filenameIn : jsstring)
    : M (option jsstring) :=
  match DEFECT_IMAGES env with
  | Some bucket =>
      if truthy image_b64 then
        match decodeBase64ToBytes (stripDataUrlPrefix image_b64) with
        | None => ret None
        | Some bytes =>
            let key :=
              js "uploads/" ++ ofN Date_now ++ js "_"
                 ++ orElse filenameIn (js "defect.jpg") in
            tryCatch
              (_ <- call (R2_put key bytes (js "image/jpeg"))
                         (put bucket key bytes (js "image/jpeg")) ;;
               ret (Some key))
              (fun _ => ret (Some key))
        end
      else ret None
  | None => ret None
  end.

Definition defectOf (e : SopEntry) : Defect :=
  {| d_code := code e;
     d_name := name e;
     d_severity := severity e;
     d_root_causes := root_causes e;
     d_corrective_actions := corrective_actions e |}.

(** [findSop(best_match.code) ?? KB[0]]. *)
Definition resolveDefect (best_match : MatchCandidate) : Result SopEntry :=
  match findSop (mc_code best_match) with
  | Some e => Ok e
  | None =>
      match nth_error KB 0 with
      | Some e => Ok e
      | None => Throw typeError
      end
  end.

(** Lines 271-286: the index first, else the keyword fallback. *)
Definition resolveMatch (env : Env) (description : jsstring)
    : M MatchCandidate :=
  best_match <- vectorizeMatch env description ;;
  match best_match with
  | Some m => ret m
  | None => ([], keywordFallback description)
  end.

Definition handleAnalyze (request : Request) (env : Env) : M Response :=
  match readJsonSafe request with
  | None => ret (json (OkFalse (js "Invalid JSON")) 400)
  | Some b =>
      let description := orEmpty (description b) in
      let image_b64 := orEmpty (image_base64 b) in
      let filenameIn := sanitizeFileName (orEmpty (filename b)) in
      image_key <- storeImage env image_b64 filenameIn ;;
      best_match <- resolveMatch env description ;;
      defect <- ([], resolveDefect best_match) ;;
      rationale <- llmRationale env description best_match ;;
      ret (json (Analysis image_key best_match (defectOf defect) rationale) 200)
  end.

Definition clarifyingPrompt : jsstring :=
  js "Please describe the defect in more detail – substrate, coating type, drying, line speed, etc.".

Definition unreachableReply : jsstring :=
  js "I could not reach the analysis engine right now. Please try again later.".

Definition scoreText (s : Score) : jsstring :=
  match s with
  | Count n => ofZ n
  | Similarity x => x
  end.

(** Lines 332-339.  A field read from a missing object prints as
    [undefined]; the score line is added when the score is a number. *)
Definition chatReply (best_match : option MatchCandidate)
    (defect : option Defect) (rationale : jsstring) : jsstring :=
  js "Based on your description, a likely match is:" ++ nl
  ++ js "• Code: "
  ++ match best_match with Some m => mc_code m | None => js "undefined" end
  ++ nl
  ++ js "• Name: "
  ++ match defect with Some d => d_name d | None => js "undefined" end
  ++ nl
  ++ js "• Severity: "
  ++ match best_match, defect with
     | Some m, _ => mc_severity m
     | None, Some d => severityString (d_severity d)
     | None, None => js "undefined"
     end
  ++ nl
  ++ match best_match with
     | Some m => js "• Match score (demo): " ++ scoreText (mc_score m) ++ nl ++ nl
     | None => []
     end
  ++ orElse rationale
       (js "Full SOP steps are part of the CoatDoctor handbook and internal engine.").

Definition handleChat (request : Request) (env : Env) : M Response :=
  match readJsonSafe request with
  | None => ret (json (ErrorOnly (js "Invalid JSON")) 400)
  | Some b =>
      let message := trim (orEmpty (message b)) in
      if negb (truthy message) || (List.length message <? 3)%nat then
        ret (json (Reply clarifyingPrompt) 200)
      else
        analyzeRes <-
          handleAnalyze
            {| method := js "POST";
               pathname := js "/api/analyze";
               json_body :=
                 Some {| description := Some message; image_base64 := None;
                         filename := None; message := None;
                         contentType := None; data := None |} |}
            env ;;
        match body analyzeRes with
        | OkFalse _ => ret (json (Reply unreachableReply) 200)
        | Analysis _ best_match defect rationale =>
            ret (json (Reply (chatReply (Some best_match) (Some defect) rationale)) 200)
        | _ => ret (json (Reply (chatReply None None [])) 200)
        end
  end.

Definition handleUpload (request : Request) (env : Env) : M Response :=
  match DEFECT_IMAGES env with
  | None => ret (json (ErrorOnly (js "R2 bucket not configured")) 500)
  | Some bucket =>
      match readJsonSafe request with
      | None => ret (json (ErrorOnly (js "Invalid JSON")) 400)
      | Some b =>
          let filename := sanitizeFileName (orEmpty (filename b)) in
          let contentType := orElse (orEmpty (contentType b)) (js "image/jpeg") in
          let base64Data := orEmpty (data b) in
          if negb (truthy filename) || negb (truthy base64Data) then
            ret (json (ErrorOnly (js "Missing filename or data")) 400)
          else
            match decodeBase64ToBytes (stripDataUrlPrefix base64Data) with
            | None => ret (json (ErrorOnly (js "Invalid base64 data")) 400)
            | Some bytes =>
                let key := js "clients/" ++ filename in
                _ <- call (R2_put key bytes contentType)
                          (put bucket key bytes contentType) ;;
                ret (json (Uploaded key) 200)
            end
      end
  end.

(** *** Router (lines 370-405) *)

Definition route (request : Request) (env : Env) : M Response :=
  let at_ (path verb : jsstring) :=
    eqb (pathname request) path && eqb (method request) verb in
  if at_ (js "/api/health") (js "GET") then handleHealth
  else if at_ (js "/api/seed") (js "POST") then handleSeed env
  else if at_ (js "/api/analyze") (js "POST") then handleAnalyze request env
  else if at_ (js "/api/chat") (js "POST") then handleChat request env
  else if at_ (js "/api/upload") (js "POST") then handleUpload request env
  else ret {| status := 404; body := PlainText (js "Not found") |}.

Definition fetch (request : Request) (env : Env) : M Response :=
  if eqb (method request) (js "OPTIONS") then
    ret {| status := 204; body := NoContent |}
  else
    tryCatch (route request env)
             (fun err => ret (json (OkFalse err) 500)).

(** *** The scoring rules as the specification words them

    Three independent rules, each worth 2, added up. *)

Definition orangePeelRule (t : jsstring) (e : SopEntry) : Z :=
  if includes (toLowerCase (text e)) (js "orange")
     && includes t (js "orange peel")
  then 2%Z else 0%Z.

Definition pinholeRule (t : jsstring) (e : SopEntry) : Z :=
  if includes (toLowerCase (text e)) (js "pinhole")
     && (includes t (js "pinholes") || includes t (js "crater"))
  then 2%Z else 0%Z.

Definition adhesionRule (t : jsstring) (e : SopEntry) : Z :=
  if includes t (js "adhesion") || includes t (js "tape test")
  then (if eqb (code e) (js "CD004-AD") then 2%Z else 0%Z)
  else 0%Z.

Definition additiveScore (t : jsstring) (e : SopEntry) : Z :=
  (orangePeelRule t e + pinholeRule t e + adhesionRule t e)%Z.

End Worker.

(** ** Notions used in the statements *)

(** [x] is the first element of [l] on which [f] is greatest: everything
    before it is strictly smaller, everything after it is no greater. *)
Definition firstMaximum {A} (f : A -> Z) (l : list A) (x : A) : Prop :=
  exists before after,
    l = before ++ x :: after
    /\ (forall y, In y before -> (f y < f x)%Z)
    /\ (forall y, In y after -> (f y <= f x)%Z).

(** The same request with the image field left out. *)
Definition withoutImage (request : Request) (b : Body) : Request :=
  {| method := method request;
     pathname := pathname request;
     json_body := Some (withImage b None) |}.

Definition isPut (ev : Event) : bool :=
  match ev with R2_put _ _ _ => true | _ => false end.

Definition isLlm (ev : Event) : bool :=
  match ev with AI_llm _ _ => true | _ => false end.

(** Sample requests and an entry outside the catalog. *)
Definition orangePeelRequest : Request :=
  post "/api/analyze" (describing "orange peel defect").

Definition brokenImageRequest : Request :=
  post "/api/analyze"
       (withImage (describing "orange peel defect")
                  (Some (js "data:image/jpeg;base64,###"))).

Definition noDescriptionRequest : Request := post "/api/analyze" emptyBody.

Definition seedRequest : Request :=
  {| method := js "POST"; pathname := js "/api/seed"; json_body := None |}.

Definition hybridEntry : SopEntry :=
  {| code := js "CD004-AD";
     name := js "Adhesion loss over orange peel";
     severity := High;
     text := js "Orange peel texture with loss of adhesion.";
     root_causes := [];
     corrective_actions := [] |}.

Definition clock : N := 1730543000123%N.

(** What [vectorizeMatch] makes of [staleMatch]. *)
Definition staleCandidate : MatchCandidate :=
  {| mc_code := js "CD999-XX";
     mc_name := js "Blistering";
     mc_severity := js "High";
     mc_score := Similarity (js "0.91") |}.

Definition adviceText : jsstring := js "Check viscosity and leveling first.".

(** ** Notions for the further properties *)

Definition isUpsert (ev : Event) : bool :=
  match ev with Vectorize_upsert _ => true | _ => false end.

(** Calls that read from a service and write nothing. *)
Definition isRead (ev : Event) : bool :=
  match ev with
  | AI_embed _ | AI_llm _ _ | Vectorize_query _ => true
  | _ => false
  end.

Definition isComma (c : N) : bool := (c =? 44)%N.

Definition isSlash (c : N) : bool := (c =? 47)%N.

(** The record that line 198-206 builds from a vector and the entry at the
    same index. *)
Definition recordOf (p : Vector * SopEntry) : VectorRecord :=
  {| vr_id := code (snd p);
     vr_values := fst p;
     vr_metadata :=
       {| md_code := Some (code (snd p));
          md_name := Some (name (snd p));
          md_severity := Some (severityString (severity (snd p))) |} |}.

(** The request that [handleChat] hands to [handleAnalyze]. *)
Definition chatAnalyzeRequest (message : jsstring) : Request :=
  {| method := js "POST";
     pathname := js "/api/analyze";
     json_body :=
       Some {| description := Some message; image_base64 := None;
               filename := None; message := None;
               contentType := None; data := None |} |}.

(** The five routes of the router. *)
Definition isRoute (request : Request) : bool :=
  eqb (pathname request) (js "/api/health") && eqb (method request) (js "GET")
  || eqb (pathname request) (js "/api/seed") && eqb (method request) (js "POST")
  || eqb (pathname request) (js "/api/analyze")
     && eqb (method request) (js "POST")
  || eqb (pathname request) (js "/api/chat") && eqb (method request) (js "POST")
  || eqb (pathname request) (js "/api/upload")
     && eqb (method request) (js "POST").

(** More sample bindings and requests. *)
Definition putDownBucket : R2Bucket :=
  {| put := fun _ _ _ => Throw (js "bucket unavailable") |}.

Definition envPutDown : Env :=
  {| AI := workingAi; DEFECT_IMAGES := Some putDownBucket;
     VECTORIZE_INDEX := None |}.

Definition envNoBucket : Env :=
  {| AI := workingAi; DEFECT_IMAGES := None; VECTORIZE_INDEX := None |}.

Definition noVectorAi : Ai :=
  {| run_embedding := fun _ => Ok None;
     run_llm := fun _ _ => Ok (Some adviceText) |}.

Definition bareMatch : VectorizeMatch :=
  {| vm_id := js "CD003-LN"; vm_score := js "0.77"; vm_metadata := None |}.

Definition imageBody : Body :=
  {| description := Some (js "orange peel defect");
     image_base64 := Some (js "data:image/jpeg;base64,aGVsbG8=");
     filename := Some (js "line 3/photo.jpg");
     message := None; contentType := None; data := None |}.

Definition uploadBody (fileName payload : string) : Body :=
  {| description := None; image_base64 := None;
     filename := Some (js fileName); message := None;
     contentType := None; data := Some (js payload) |}.


Definition getAnalyzeRequest : Request :=
  {| method := js "GET"; pathname := js "/api/analyze"; json_body := None |}.

Definition tapeTestChat : Request :=
  post "/api/chat" (saying "  The lacquer fails the tape test ").

Definition tapeTestMessage : jsstring := js "The lacquer fails the tape test".

Definition helloUpload : Request :=
  post "/api/upload"
       (uploadBody "line 3/photo.jpg" "data:image/png;base64,aGVsbG8=").

(** ** Proof automation *)

(** Closed tests on literals are settled by evaluation. *)
Ltac eval_literal_tests :=
  repeat match goal with
  | |- context [eqb (js ?a) (js ?b)] =>
      let v := eval vm_compute in (eqb (js a) (js b)) in
      change (eqb (js a) (js b)) with v
  | |- context [eqb (code ?e) (js ?b)] =>
      is_const e;
      let v := eval vm_compute in (eqb (code e) (js b)) in
      change (eqb (code e) (js b)) with v
  end.

Ltac each_entry H :=
  unfold KB in H; simpl in H;
  repeat (destruct H as [H | H]; [symmetry in H; subst |]);
  [ .. | contradiction ].

(** * Properties *)

Unset Implicit Arguments.

(** ** Strings *)

Lemma eqb_eq (a b : jsstring) : eqb a b = true <-> a = b.
Proof.
  unfold eqb. destruct (list_eq_dec N.eq_dec a b); split; congruence.
Qed.

Lemma eqb_refl (a : jsstring) : eqb a a = true.
Proof. now apply eqb_eq. Qed.

Lemma includes_nil (needle : jsstring) :
  needle <> [] -> includes [] needle = false.
Proof. destruct needle; [congruence | reflexivity]. Qed.

Example js_ascii : js "CD001-OP" = [67; 68; 48; 48; 49; 45; 79; 80]%N.
Proof. reflexivity. Qed.

Example js_en_dash : js "a – b" = [97; 32; 8211; 32; 98]%N.
Proof. reflexivity. Qed.

Example ofN_render : ofZ 0 = js "0" /\ ofN clock = js "1730543000123".
Proof. split; reflexivity. Qed.

Example trim_spaces : trim (js "  ab ") = js "ab".
Proof. reflexivity. Qed.

Example sanitize_runs :
  sanitizeFileName (js "my photo (1).jpg") = js "my_photo_1_.jpg".
Proof. reflexivity. Qed.

Example strip_prefix :
  stripDataUrlPrefix (js "data:image/png;base64,AAAA") = js "AAAA".
Proof. reflexivity. Qed.

Example base64_hello :
  forgivingBase64Decode (js "aGVsbG8=") = Some (js "hello")
  /\ forgivingBase64Decode (js "aGVs bG8") = Some (js "hello")
  /\ forgivingBase64Decode (js "###") = None
  /\ forgivingBase64Decode (js "a") = None.
Proof. repeat split; reflexivity. Qed.

(** ** The trace monad *)

Lemma bind_ret_l {A B} (a : A) (f : A -> M B) : bind (ret a) f = f a.
Proof. unfold bind, ret. now destruct (f a). Qed.

Lemma bind_ok {A B} (m : M A) (f : A -> M B) t a t' r :
  m = (t, Ok a) -> f a = (t', r) -> bind m f = (t ++ t', r).
Proof. intros -> H. unfold bind. now rewrite H. Qed.

Lemma bind_throw {A B} (m : M A) (f : A -> M B) t e :
  m = (t, Throw e) -> bind m f = (t, Throw e).
Proof. now intros ->. Qed.

(** ** The knowledge base *)

Lemma KB_codes_NoDup : NoDup (map code KB).
Proof.
  vm_compute.
  repeat (constructor; [simpl; intuition discriminate |]).
  constructor.
Qed.

Lemma KB_code_unique (e e' : SopEntry) :
  In e KB -> In e' KB -> code e = code e' -> e = e'.
Proof.
  unfold KB. simpl. intros H H' Hc.
  repeat (destruct H as [H | H]; [subst e |]); try contradiction;
    repeat (destruct H' as [H' | H']; [subst e' |]); try contradiction;
    try (vm_compute in Hc; discriminate); reflexivity.
Qed.

Lemma findSop_some (c : jsstring) (e : SopEntry) :
  findSop c = Some e -> In e KB /\ code e = c.
Proof.
  unfold findSop. intros H. apply find_some in H.
  destruct H as [Hin Heq]. split; [assumption | now apply eqb_eq].
Qed.

Lemma findSop_code (e : SopEntry) : In e KB -> findSop (code e) = Some e.
Proof.
  intros Hin. destruct (findSop (code e)) as [e' |] eqn:Hf.
  - apply findSop_some in Hf. destruct Hf as [Hin' Hc].
    f_equal. now apply KB_code_unique.
  - unfold findSop in Hf.
    pose proof (find_none _ _ Hf e Hin) as Hn.
    cbv beta in Hn. now rewrite eqb_refl in Hn.
Qed.

Lemma KB_first : nth_error KB 0 = Some KB_CD001_OP.
Proof. reflexivity. Qed.

(** ** Sorting *)

Section SortFacts.

Variable A : Type.
Variable f : A -> Z.

Lemma insertSorted_not_nil (cmp : A -> A -> Z) (x : A) (l : list A) :
  insertSorted cmp x l <> [].
Proof. destruct l; simpl; [| destruct (cmp x a <=? 0)%Z]; discriminate. Qed.

Lemma sort_nil_inv (cmp : A -> A -> Z) (l : list A) :
  sort cmp l = [] -> l = [].
Proof.
  destruct l as [| a l]; [reflexivity |].
  simpl. intros H. now apply insertSorted_not_nil in H.
Qed.

Lemma insertSorted_perm (cmp : A -> A -> Z) (x : A) (l : list A) :
  Permutation (x :: l) (insertSorted cmp x l).
Proof.
  induction l as [| y l IH]; simpl; [reflexivity |].
  destruct (cmp x y <=? 0)%Z; [reflexivity |].
  rewrite perm_swap. now apply perm_skip.
Qed.

(** The sort rearranges: nothing is lost or duplicated. *)
Lemma sort_perm (cmp : A -> A -> Z) (l : list A) : Permutation l (sort cmp l).
Proof.
  induction l as [| x l IH]; simpl; [reflexivity |].
  rewrite <- insertSorted_perm. now apply perm_skip.
Qed.

Lemma insertSorted_descending (x : A) (l : list A) :
  StronglySorted (fun a b => (f b <= f a)%Z) l ->
  StronglySorted (fun a b => (f b <= f a)%Z)
                 (insertSorted (fun a b => (f b - f a)%Z) x l).
Proof.
  induction l as [| y l IH]; intros Hs; simpl.
  - constructor; constructor.
  - destruct (f y - f x <=? 0)%Z eqn:Hc.
    + apply Z.leb_le in Hc. constructor; [assumption |].
      constructor; [lia |].
      inversion Hs as [| ? ? _ Hall]; subst.
      eapply Forall_impl; [| exact Hall]. intros z Hz. simpl in Hz. lia.
    + apply Z.leb_gt in Hc.
      inversion Hs as [| ? ? Hs' Hall]; subst.
      constructor; [now apply IH |].
      rewrite <- insertSorted_perm. constructor; [lia | assumption].
Qed.

(** With [(a, b) => b.score - a.score] the result is in descending order. *)
Lemma sort_descending (l : list A) :
  StronglySorted (fun a b => (f b <= f a)%Z)
                 (sort (fun a b => (f b - f a)%Z) l).
Proof.
  induction l as [| x l IH]; simpl; [constructor |].
  now apply insertSorted_descending.
Qed.

(** Its head is the first element of greatest score: ties keep their
    order. *)
Lemma sort_head_firstMaximum (l : list A) (x : A) (xs : list A) :
  sort (fun a b => (f b - f a)%Z) l = x :: xs -> firstMaximum f l x.
Proof.
  revert x xs. induction l as [| a l IH]; intros x xs H.
  - discriminate.
  - simpl in H.
    destruct (sort (fun a b => (f b - f a)%Z) l) as [| y ys] eqn:Hs.
    + apply sort_nil_inv in Hs. subst l. simpl in H.
      injection H as <- _. exists [], []. repeat split; intros ? [].
    + destruct (IH y ys eq_refl) as (before & after & Hl & Hb & Ha).
      simpl in H.
      destruct (f y - f a <=? 0)%Z eqn:Hc.
      * injection H as <- _. apply Z.leb_le in Hc.
        exists [], l. split; [reflexivity |]. split; [intros ? [] |].
        intros z Hz. rewrite Hl in Hz. apply in_app_or in Hz.
        destruct Hz as [Hz | [<- | Hz]].
        -- specialize (Hb z Hz). lia.
        -- lia.
        -- specialize (Ha z Hz). lia.
      * injection H as <- _. apply Z.leb_gt in Hc.
        exists (a :: before), after. split; [now rewrite Hl |].
        split; [| assumption].
        intros z [<- | Hz]; [lia | now apply Hb].
Qed.

End SortFacts.

Lemma firstMaximum_In {A} (f : A -> Z) (l : list A) (x : A) :
  firstMaximum f l x -> In x l.
Proof.
  intros (before & after & -> & _). apply in_or_app. right. now left.
Qed.

Lemma firstMaximum_greatest {A} (f : A -> Z) (l : list A) (x y : A) :
  firstMaximum f l x -> In y l -> (f y <= f x)%Z.
Proof.
  intros (before & after & -> & Hb & Ha) Hy.
  apply in_app_or in Hy. destruct Hy as [Hy | [<- | Hy]].
  - specialize (Hb y Hy). lia.
  - lia.
  - now apply Ha.
Qed.

(** In a list without repetition, an element that ties with the first
    maximum stands at a later position. *)
Lemma firstMaximum_ties_later {A} (f : A -> Z) (l : list A) (x y : A)
    (i j : nat) :
  NoDup l -> firstMaximum f l x ->
  nth_error l i = Some y -> nth_error l j = Some x ->
  f y = f x -> (j <= i)%nat.
Proof.
  intros Hnd (before & after & -> & Hb & _) Hi Hj Heq.
  assert (Hpos : nth_error (before ++ x :: after) (List.length before)
                 = Some x).
  { rewrite nth_error_app2 by lia. now rewrite Nat.sub_diag. }
  assert (Hjl : j = List.length before).
  { rewrite NoDup_nth_error in Hnd. apply Hnd.
    - apply nth_error_Some. now rewrite Hj.
    - now rewrite Hj, Hpos. }
  subst j.
  destruct (Nat.le_gt_cases (List.length before) i) as [Hle | Hlt];
    [exact Hle |].
  rewrite nth_error_app1 in Hi by exact Hlt.
  apply nth_error_In in Hi. specialize (Hb y Hi). lia.
Qed.

(** ** The worker *)

Section WorkerFacts.

Variable toLowerCase : jsstring -> jsstring.
Variable atob : jsstring -> option jsstring.
Variable Date_now : N.

(** On strings of ASCII units the runtime lower-casing is the ASCII one. *)
Hypothesis toLowerCase_ascii :
  forall s, isAscii s = true -> toLowerCase s = asciiLower s.

Lemma text_isAscii (e : SopEntry) : In e KB -> isAscii (text e) = true.
Proof. intros H. each_entry H; vm_compute; reflexivity. Qed.

(** Only the first entry's text mentions "orange"; no text mentions
    "pinhole". *)
Lemma text_includes_orange (e : SopEntry) :
  In e KB ->
  includes (toLowerCase (text e)) (js "orange") = eqb (code e) (js "CD001-OP").
Proof.
  intros H. rewrite (toLowerCase_ascii _ (text_isAscii _ H)).
  each_entry H; vm_compute; reflexivity.
Qed.

Lemma text_includes_pinhole (e : SopEntry) :
  In e KB -> includes (toLowerCase (text e)) (js "pinhole") = false.
Proof.
  intros H. rewrite (toLowerCase_ascii _ (text_isAscii _ H)).
  each_entry H; vm_compute; reflexivity.
Qed.

Lemma fallbackScore_ascii (t : jsstring) (e : SopEntry) :
  In e KB -> fallbackScore toLowerCase t e = fallbackScore asciiLower t e.
Proof.
  intros H. unfold fallbackScore.
  now rewrite (toLowerCase_ascii _ (text_isAscii _ H)).
Qed.

Lemma rankKB_ascii (t : jsstring) : rankKB toLowerCase t = rankKB asciiLower t.
Proof.
  unfold rankKB. f_equal. apply map_ext_in. intros e H.
  now rewrite fallbackScore_ascii.
Qed.

Lemma keywordFallback_ascii (description : jsstring) :
  isAscii description = true ->
  keywordFallback toLowerCase description = keywordFallback asciiLower description.
Proof.
  intros H. unfold keywordFallback.
  now rewrite (toLowerCase_ascii _ H), rankKB_ascii.
Qed.

(** The head of the ranking is the first entry of greatest score. *)
Lemma rankKB_head (t : jsstring) :
  exists top rest,
    rankKB toLowerCase t
    = {| entry := top; score := fallbackScore toLowerCase t top |} :: rest
    /\ firstMaximum (fallbackScore toLowerCase t) KB top.
Proof.
  unfold rankKB.
  set (mk := fun e => {| entry := e; score := fallbackScore toLowerCase t e |}).
  destruct (sort (fun a b => (score b - score a)%Z) (map mk KB))
    as [| s rest] eqn:Hs.
  - apply sort_nil_inv in Hs. discriminate.
  - apply sort_head_firstMaximum in Hs.
    destruct Hs as (before & after & Hl & Hb & Ha).
    apply map_eq_app in Hl. destruct Hl as (l1 & l2 & HKB & H1 & H2).
    apply map_eq_cons in H2. destruct H2 as (top & l3 & -> & <- & H3).
    exists top, rest. split; [reflexivity |].
    exists l1, l3. split; [assumption |]. split.
    + intros y Hy. apply (Hb (mk y)). rewrite <- H1. now apply in_map.
    + intros y Hy. apply (Ha (mk y)). rewrite <- H3. now apply in_map.
Qed.

Lemma keywordFallback_top (description : jsstring) :
  exists top,
    firstMaximum (fallbackScore toLowerCase (toLowerCase description)) KB top
    /\ keywordFallback toLowerCase description
       = Ok (candidateOf top
               (fallbackScore toLowerCase (toLowerCase description) top)).
Proof.
  destruct (rankKB_head (toLowerCase description)) as (top & rest & Hr & Hmax).
  exists top. split; [assumption |].
  unfold keywordFallback. now rewrite Hr.
Qed.

(** C2: for every (lower-cased) description, the score the fallback gives
    to each entry of the catalog is the sum of the three rule contributions:
    2 for the orange-peel rule, 2 for the pinhole/crater rule and 2 for the
    adhesion/tape-test rule on entry CD004-AD. *)
Theorem fallbackScore_is_sum_of_rules (t : jsstring) (e : SopEntry) :
  In e KB ->
  fallbackScore toLowerCase t e = additiveScore toLowerCase t e.
Proof.
  intros H.
  unfold fallbackScore, additiveScore, orangePeelRule, pinholeRule, adhesionRule.
  rewrite (text_includes_orange _ H), (text_includes_pinhole _ H).
  each_entry H; eval_literal_tests;
    destruct (includes t (js "orange peel")),
             (includes t (js "adhesion")),
             (includes t (js "tape test")); reflexivity.
Qed.

(** C5: for every description the fallback selects the first catalog entry
    of greatest score.  No entry scores more than the selected one; every
    entry declared before it scores strictly less and every entry declared
    after it scores no more; so of two entries with equal scores the one
    declared later is never selected in place of the earlier.  The candidate
    carries the selected entry's code and score. *)
Theorem fallback_selects_first_maximum (description : jsstring) :
  exists top,
    keywordFallback toLowerCase description
    = Ok (candidateOf top
            (fallbackScore toLowerCase (toLowerCase description) top))
    /\ firstMaximum (fallbackScore toLowerCase (toLowerCase description)) KB top
    /\ (forall e, In e KB ->
          (fallbackScore toLowerCase (toLowerCase description) e
           <= fallbackScore toLowerCase (toLowerCase description) top)%Z)
    /\ (forall e i j,
          nth_error KB i = Some e -> nth_error KB j = Some top ->
          fallbackScore toLowerCase (toLowerCase description) e
          = fallbackScore toLowerCase (toLowerCase description) top ->
          (j <= i)%nat).
Proof.
  destruct (rankKB_head (toLowerCase description)) as (top & rest & Hr & Hmax).
  exists top. split; [unfold keywordFallback; now rewrite Hr |].
  split; [exact Hmax |]. split.
  - intros e He. now apply firstMaximum_greatest with (l := KB).
  - intros e i j Hi Hj Heq.
    apply firstMaximum_ties_later
      with (f := fallbackScore toLowerCase (toLowerCase description))
           (l := KB) (x := top) (y := e); try assumption.
    apply (NoDup_map_inv code). exact KB_codes_NoDup.
Qed.

(** C8: a chat message whose trimmed length is below 3 gets the clarifying
    prompt, and the handler makes no external call: the analyze pipeline is
    not entered. *)
Theorem short_chat_message_is_not_analyzed
    (request : Request) (env : Env) (b : Body) :
  readJsonSafe request = Some b ->
  (List.length (trim (orEmpty (message b))) < 3)%nat ->
  handleChat toLowerCase atob Date_now request env
  = ([], Ok (json (Reply clarifyingPrompt) 200)).
Proof.
  intros Hb Hlen. unfold handleChat. rewrite Hb.
  apply Nat.ltb_lt in Hlen. rewrite Hlen, orb_true_r. reflexivity.
Qed.

(** C9: without a vector index the seed handler answers 500 with the
    missing-binding error and performs no external call at all (no embedding,
    no upsert), also when reached through the router. *)
Theorem seed_without_index_is_500 (request : Request) (env : Env) :
  VECTORIZE_INDEX env = None ->
  method request = js "POST" ->
  pathname request = js "/api/seed" ->
  handleSeed env
  = ([], Ok (json (OkFalse (js "VECTORIZE_INDEX binding missing")) 500))
  /\ fetch toLowerCase atob Date_now request env
     = ([], Ok (json (OkFalse (js "VECTORIZE_INDEX binding missing")) 500)).
Proof.
  intros Hi Hm Hp.
  assert (Hs : handleSeed env
    = ([], Ok (json (OkFalse (js "VECTORIZE_INDEX binding missing")) 500))).
  { unfold handleSeed. now rewrite Hi. }
  split; [exact Hs |].
  unfold fetch, route. rewrite Hm, Hp. eval_literal_tests.
  cbn [andb]. rewrite Hs. reflexivity.
Qed.

(** *** The analyze pipeline, step by step *)

Lemma storeImage_returns (env : Env) (image_b64 filenameIn : jsstring) :
  exists tr image_key,
    storeImage atob Date_now env image_b64 filenameIn = (tr, Ok image_key)
    /\ forallb isPut tr = true.
Proof.
  unfold storeImage.
  destruct (DEFECT_IMAGES env) as [bucket |]; [| now exists [], None].
  destruct (truthy image_b64); [| now exists [], None].
  destruct (decodeBase64ToBytes atob (stripDataUrlPrefix image_b64))
    as [bytes |]; [| now exists [], None].
  cbv zeta. unfold tryCatch, bind, call, ret.
  destruct (put bucket _ bytes _); eexists; eexists; split; reflexivity.
Qed.

Lemma storeImage_undecodable (env : Env) (image_b64 filenameIn : jsstring) :
  atob (stripDataUrlPrefix image_b64) = None ->
  storeImage atob Date_now env image_b64 filenameIn = ([], Ok None).
Proof.
  intros H. unfold storeImage, decodeBase64ToBytes. rewrite H.
  destruct (DEFECT_IMAGES env); [destruct (truthy image_b64) |]; reflexivity.
Qed.

Lemma storeImage_no_image (env : Env) (filenameIn : jsstring) :
  storeImage atob Date_now env [] filenameIn = ([], Ok None).
Proof. unfold storeImage. now destruct (DEFECT_IMAGES env). Qed.

Lemma resolveDefect_returns (best_match : MatchCandidate) :
  exists defect,
    resolveDefect best_match = Ok defect
    /\ In defect KB
    /\ (findSop (mc_code best_match) = Some defect
        \/ findSop (mc_code best_match) = None /\ defect = KB_CD001_OP).
Proof.
  unfold resolveDefect.
  destruct (findSop (mc_code best_match)) as [e |] eqn:Hf.
  - exists e. split; [reflexivity |]. split; [| now left].
    now apply findSop_some in Hf.
  - exists KB_CD001_OP. split; [reflexivity |].
    split; [now left | now right].
Qed.

Lemma llmRationale_outcome (env : Env) (d : jsstring) (m : MatchCandidate) :
  llmRationale env d m
  = ([AI_llm d m],
     match run_llm (AI env) d m with
     | Ok resp => Ok (orEmpty resp)
     | Throw e => Throw e
     end).
Proof.
  unfold llmRationale, bind, call, ret.
  now destruct (run_llm (AI env) d m).
Qed.

(** Once the image step and the resolution have returned, the response is
    decided by the rationale call. *)
Lemma handleAnalyze_resolved (request : Request) (env : Env) (b : Body)
    (tri trm : list Event) (image_key : option jsstring)
    (best_match : MatchCandidate) (defect : SopEntry) :
  readJsonSafe request = Some b ->
  storeImage atob Date_now env (orEmpty (image_base64 b))
             (sanitizeFileName (orEmpty (filename b))) = (tri, Ok image_key) ->
  resolveMatch toLowerCase env (orEmpty (description b)) = (trm, Ok best_match) ->
  resolveDefect best_match = Ok defect ->
  handleAnalyze toLowerCase atob Date_now request env
  = (tri ++ trm ++ [AI_llm (orEmpty (description b)) best_match],
     match run_llm (AI env) (orEmpty (description b)) best_match with
     | Ok resp =>
         Ok (json (Analysis image_key best_match (defectOf defect)
                            (orEmpty resp)) 200)
     | Throw e => Throw e
     end).
Proof.
  intros Hb Hi Hm Hd. unfold handleAnalyze. rewrite Hb. cbv zeta.
  eapply bind_ok; [exact Hi |]. cbv beta.
  eapply bind_ok; [exact Hm |]. cbv beta.
  rewrite Hd. change ([], Ok defect) with (ret defect). rewrite bind_ret_l.
  rewrite llmRationale_outcome. unfold bind, ret.
  now destruct (run_llm (AI env) (orEmpty (description b)) best_match).
Qed.

Lemma handleAnalyze_unresolved (request : Request) (env : Env) (b : Body)
    (tri trm : list Event) (image_key : option jsstring) (e : jsstring) :
  readJsonSafe request = Some b ->
  storeImage atob Date_now env (orEmpty (image_base64 b))
             (sanitizeFileName (orEmpty (filename b))) = (tri, Ok image_key) ->
  resolveMatch toLowerCase env (orEmpty (description b)) = (trm, Throw e) ->
  handleAnalyze toLowerCase atob Date_now request env = (tri ++ trm, Throw e).
Proof.
  intros Hb Hi Hm. unfold handleAnalyze. rewrite Hb. cbv zeta.
  eapply bind_ok; [exact Hi |]. cbv beta.
  now apply bind_throw.
Qed.

Lemma fetch_analyze (request : Request) (env : Env) :
  method request = js "POST" ->
  pathname request = js "/api/analyze" ->
  fetch toLowerCase atob Date_now request env
  = tryCatch (handleAnalyze toLowerCase atob Date_now request env)
             (fun err => ret (json (OkFalse err) 500)).
Proof.
  intros Hm Hp. unfold fetch, route. rewrite Hm, Hp. eval_literal_tests.
  reflexivity.
Qed.

Lemma fetch_analyze_throw (request : Request) (env : Env) (e : jsstring) :
  method request = js "POST" ->
  pathname request = js "/api/analyze" ->
  snd (handleAnalyze toLowerCase atob Date_now request env) = Throw e ->
  snd (fetch toLowerCase atob Date_now request env)
  = Ok (json (OkFalse e) 500).
Proof.
  intros Hm Hp H. rewrite (fetch_analyze request env Hm Hp).
  destruct (handleAnalyze toLowerCase atob Date_now request env) as [t r].
  simpl in H. subst r. reflexivity.
Qed.

Lemma resolveMatch_no_index (env : Env) (d : jsstring) :
  VECTORIZE_INDEX env = None ->
  vectorizeMatch env d = ([], Ok None)
  /\ resolveMatch toLowerCase env d = ([], keywordFallback toLowerCase d).
Proof.
  intros H.
  assert (Hv : vectorizeMatch env d = ([], Ok None)).
  { unfold vectorizeMatch. now rewrite H. }
  split; [exact Hv |].
  unfold resolveMatch. rewrite Hv. unfold bind, ret.
  now destruct (keywordFallback toLowerCase d).
Qed.

Lemma resolveMatch_index_error (env : Env) (index : VectorizeIndex)
    (d e : jsstring) :
  VECTORIZE_INDEX env = Some index ->
  (run_embedding (AI env) [d] = Throw e
   \/ exists vec rest,
        run_embedding (AI env) [d] = Ok (Some (vec :: rest))
        /\ query index vec = Throw e) ->
  exists tr,
    vectorizeMatch env d = (tr, Throw e)
    /\ resolveMatch toLowerCase env d = (tr, Throw e)
    /\ existsb isLlm tr = false.
Proof.
  intros Hi H.
  assert (Hv : exists tr,
             vectorizeMatch env d = (tr, Throw e) /\ existsb isLlm tr = false).
  { unfold vectorizeMatch, embedTexts, bind, call, ret. rewrite Hi.
    destruct H as [H | (vec & rest & H & Hq)]; rewrite H.
    - eexists; split; reflexivity.
    - rewrite Hq. eexists; split; reflexivity. }
  destruct Hv as (tr & Hv & Hl). exists tr. split; [exact Hv |].
  split; [| exact Hl].
  unfold resolveMatch. now rewrite Hv.
Qed.

Lemma existsb_isLlm_puts (tr : list Event) :
  forallb isPut tr = true -> existsb isLlm tr = false.
Proof.
  induction tr as [| ev tr IH]; [reflexivity |].
  simpl. intros H. apply andb_true_iff in H. destruct H as [Hp Ht].
  destruct ev; try discriminate. simpl. now apply IH.
Qed.


(** *** The analyze pipeline: errors, defaults and fixed inputs *)

(** C1 (as the code has it): with an index configured, an error raised by
    the embedding call or by the index query is not caught: the resolution
    and [handleAnalyze] raise it, the rationale generator is never called,
    and the router's catch-all answers 500 with [ok:false] and the message. *)
Theorem index_error_fails_the_request
    (request : Request) (env : Env) (b : Body) (index : VectorizeIndex)
    (e : jsstring) :
  readJsonSafe request = Some b ->
  method request = js "POST" ->
  pathname request = js "/api/analyze" ->
  VECTORIZE_INDEX env = Some index ->
  (run_embedding (AI env) [orEmpty (description b)] = Throw e
   \/ exists vec rest,
        run_embedding (AI env) [orEmpty (description b)]
        = Ok (Some (vec :: rest))
        /\ query index vec = Throw e) ->
  snd (resolveMatch toLowerCase env (orEmpty (description b))) = Throw e
  /\ snd (handleAnalyze toLowerCase atob Date_now request env) = Throw e
  /\ existsb isLlm (fst (handleAnalyze toLowerCase atob Date_now request env))
     = false
  /\ snd (fetch toLowerCase atob Date_now request env)
     = Ok (json (OkFalse e) 500).
Proof.
  intros Hb Hm Hp Hi H.
  destruct (resolveMatch_index_error env index _ e Hi H) as (tr & _ & Hr & Hl).
  destruct (storeImage_returns env (orEmpty (image_base64 b))
              (sanitizeFileName (orEmpty (filename b))))
    as (tri & image_key & Hs & Hputs).
  pose proof (handleAnalyze_unresolved request env b tri tr image_key e
                Hb Hs Hr) as Ha.
  split; [now rewrite Hr |].
  assert (Hsnd : snd (handleAnalyze toLowerCase atob Date_now request env)
                 = Throw e) by now rewrite Ha.
  split; [exact Hsnd |]. split.
  - rewrite Ha. simpl. rewrite existsb_app, Hl.
    now rewrite (existsb_isLlm_puts _ Hputs).
  - now apply fetch_analyze_throw.
Qed.

(** C3 (as the code has it): once the match is resolved, the outcome of the
    rationale call decides the response.  If the generator answers, the
    response is 200 with the answer's text, the empty string when there is
    none; if it raises, [handleAnalyze] raises the same error and the router
    answers 500 with [ok:false]. *)
Theorem rationale_outcome_decides_the_response
    (request : Request) (env : Env) (b : Body) (tr : list Event)
    (best_match : MatchCandidate) :
  readJsonSafe request = Some b ->
  method request = js "POST" ->
  pathname request = js "/api/analyze" ->
  resolveMatch toLowerCase env (orEmpty (description b)) = (tr, Ok best_match) ->
  match run_llm (AI env) (orEmpty (description b)) best_match with
  | Ok resp =>
      exists tr' image_key defect,
        handleAnalyze toLowerCase atob Date_now request env
        = (tr', Ok (json (Analysis image_key best_match (defectOf defect)
                                   (orEmpty resp)) 200))
  | Throw e =>
      snd (handleAnalyze toLowerCase atob Date_now request env) = Throw e
      /\ snd (fetch toLowerCase atob Date_now request env)
         = Ok (json (OkFalse e) 500)
  end.
Proof.
  intros Hb Hm Hp Hr.
  destruct (storeImage_returns env (orEmpty (image_base64 b))
              (sanitizeFileName (orEmpty (filename b))))
    as (tri & image_key & Hs & _).
  destruct (resolveDefect_returns best_match) as (defect & Hd & _).
  pose proof (handleAnalyze_resolved request env b tri tr image_key
                best_match defect Hb Hs Hr Hd) as Ha.
  destruct (run_llm (AI env) (orEmpty (description b)) best_match)
    as [resp | e].
  - now exists (tri ++ tr ++ [AI_llm (orEmpty (description b)) best_match]),
      image_key, defect.
  - assert (Hsnd : snd (handleAnalyze toLowerCase atob Date_now request env)
                   = Throw e) by now rewrite Ha.
    split; [exact Hsnd | now apply fetch_analyze_throw].
Qed.

(** C4 (as the code has it): when the resolution and the rationale call
    return, the response carries the resolved match unchanged together with
    a [defect] that is one catalog entry, the only one with its code: the
    entry found under the match's code, or the first entry when there is
    none.  On the fallback path the match's code is that entry's code; on the
    vector path the match is what the index gave. *)
Theorem analysis_defect_is_a_catalog_entry
    (request : Request) (env : Env) (b : Body) (tr : list Event)
    (best_match : MatchCandidate) (resp : option jsstring) :
  readJsonSafe request = Some b ->
  resolveMatch toLowerCase env (orEmpty (description b)) = (tr, Ok best_match) ->
  run_llm (AI env) (orEmpty (description b)) best_match = Ok resp ->
  exists tr' image_key defect,
    handleAnalyze toLowerCase atob Date_now request env
    = (tr', Ok (json (Analysis image_key best_match (defectOf defect)
                               (orEmpty resp)) 200))
    /\ In defect KB
    /\ (forall e, In e KB -> code e = code defect -> e = defect)
    /\ (findSop (mc_code best_match) = Some defect
        \/ findSop (mc_code best_match) = None /\ defect = KB_CD001_OP)
    /\ (snd (vectorizeMatch env (orEmpty (description b)))
        = Ok (Some best_match)
        \/ snd (vectorizeMatch env (orEmpty (description b))) = Ok None
           /\ mc_code best_match = code defect).
Proof.
  intros Hb Hr Hl.
  destruct (storeImage_returns env (orEmpty (image_base64 b))
              (sanitizeFileName (orEmpty (filename b))))
    as (tri & image_key & Hs & _).
  destruct (resolveDefect_returns best_match) as (defect & Hd & Hin & Hfind).
  pose proof (handleAnalyze_resolved request env b tri tr image_key
                best_match defect Hb Hs Hr Hd) as Ha.
  rewrite Hl in Ha.
  exists (tri ++ tr ++ [AI_llm (orEmpty (description b)) best_match]),
    image_key, defect.
  split; [exact Ha |]. split; [exact Hin |]. split.
  { intros e He Hc. now apply KB_code_unique. }
  split; [exact Hfind |].
  unfold resolveMatch in Hr.
  destruct (vectorizeMatch env (orEmpty (description b))) as [t [[m |] | err]];
    simpl in Hr |- *.
  - left. injection Hr as _ ->. reflexivity.
  - right. split; [reflexivity |].
    destruct (keywordFallback_top (orEmpty (description b)))
      as (top & Hmax & Hk).
    rewrite Hk in Hr. injection Hr as _ <-.
    apply firstMaximum_In in Hmax.
    simpl in Hfind. rewrite (findSop_code _ Hmax) in Hfind.
    destruct Hfind as [Hf | [Hf _]]; [| discriminate].
    now injection Hf as ->.
  - discriminate.
Qed.

(** C6: with no vector index, the description "orange peel defect" is
    resolved by the keyword fallback, without any call to the embedding model
    or to an index, to entry CD001-OP with score 2; when the rationale call
    returns, that is the best match of the 200 response. *)
Theorem orange_peel_defect_matches_CD001
    (request : Request) (env : Env) (b : Body) (resp : option jsstring) :
  readJsonSafe request = Some b ->
  description b = Some (js "orange peel defect") ->
  VECTORIZE_INDEX env = None ->
  run_llm (AI env) (js "orange peel defect") (candidateOf KB_CD001_OP 2)
  = Ok resp ->
  mc_code (candidateOf KB_CD001_OP 2) = js "CD001-OP"
  /\ vectorizeMatch env (js "orange peel defect") = ([], Ok None)
  /\ keywordFallback toLowerCase (js "orange peel defect")
     = Ok (candidateOf KB_CD001_OP 2)
  /\ exists tr image_key,
       forallb isPut tr = true
       /\ handleAnalyze toLowerCase atob Date_now request env
          = (tr ++ [AI_llm (js "orange peel defect") (candidateOf KB_CD001_OP 2)],
             Ok (json (Analysis image_key (candidateOf KB_CD001_OP 2)
                                (defectOf KB_CD001_OP) (orEmpty resp)) 200)).
Proof.
  intros Hb Hdesc Hi Hl.
  assert (Hk : keywordFallback toLowerCase (js "orange peel defect")
               = Ok (candidateOf KB_CD001_OP 2)).
  { rewrite keywordFallback_ascii by (vm_compute; reflexivity).
    vm_compute. reflexivity. }
  destruct (resolveMatch_no_index env (js "orange peel defect") Hi)
    as [Hv Hr].
  rewrite Hk in Hr.
  split; [reflexivity |]. split; [exact Hv |]. split; [exact Hk |].
  destruct (storeImage_returns env (orEmpty (image_base64 b))
              (sanitizeFileName (orEmpty (filename b))))
    as (tri & image_key & Hs & Hputs).
  exists tri, image_key. split; [exact Hputs |].
  assert (Hd : orEmpty (description b) = js "orange peel defect")
    by now rewrite Hdesc.
  rewrite <- Hd in Hr, Hl.
  rewrite (handleAnalyze_resolved request env b tri [] image_key
             (candidateOf KB_CD001_OP 2) KB_CD001_OP Hb Hs Hr);
    [| vm_compute; reflexivity].
  rewrite Hl, Hd. reflexivity.
Qed.

(** C7: when [atob] rejects the image payload, the failure is swallowed:
    nothing is stored, the request behaves exactly as the same request
    without an image, and when the resolution and the rationale call return
    the response is 200 with a null [image_key] and the diagnostic payload
    they produced. *)
Theorem undecodable_image_is_ignored
    (request : Request) (env : Env) (b : Body) (img : jsstring)
    (tr : list Event) (best_match : MatchCandidate) (resp : option jsstring) :
  readJsonSafe request = Some b ->
  image_base64 b = Some img ->
  atob (stripDataUrlPrefix img) = None ->
  resolveMatch toLowerCase env (orEmpty (description b)) = (tr, Ok best_match) ->
  run_llm (AI env) (orEmpty (description b)) best_match = Ok resp ->
  handleAnalyze toLowerCase atob Date_now request env
  = handleAnalyze toLowerCase atob Date_now (withoutImage request b) env
  /\ exists defect,
       resolveDefect best_match = Ok defect
       /\ handleAnalyze toLowerCase atob Date_now request env
          = (tr ++ [AI_llm (orEmpty (description b)) best_match],
             Ok (json (Analysis None best_match (defectOf defect)
                                (orEmpty resp)) 200)).
Proof.
  intros Hb Himg Hatob Hr Hl.
  destruct (resolveDefect_returns best_match) as (defect & Hd & _).
  assert (Hs : storeImage atob Date_now env (orEmpty (image_base64 b))
                 (sanitizeFileName (orEmpty (filename b))) = ([], Ok None)).
  { rewrite Himg. now apply storeImage_undecodable. }
  pose proof (handleAnalyze_resolved request env b [] tr None
                best_match defect Hb Hs Hr Hd) as Ha.
  rewrite Hl in Ha. simpl app in Ha.
  split.
  - rewrite Ha. symmetry.
    rewrite (handleAnalyze_resolved (withoutImage request b) env
               (withImage b None) [] tr None best_match defect
               eq_refl (storeImage_no_image env _) Hr Hd).
    simpl description. now rewrite Hl.
  - now exists defect.
Qed.

(** C10: with no vector index and a description that is missing or empty,
    every catalog entry scores 0 and the fallback yields the first entry,
    CD001-OP, with score 0; when the rationale call returns, the response is
    200 with that best match. *)
Theorem missing_description_selects_first_entry
    (request : Request) (env : Env) (b : Body) (resp : option jsstring) :
  readJsonSafe request = Some b ->
  orEmpty (description b) = [] ->
  VECTORIZE_INDEX env = None ->
  run_llm (AI env) [] (candidateOf KB_CD001_OP 0) = Ok resp ->
  (forall e, In e KB -> fallbackScore toLowerCase (toLowerCase []) e = 0%Z)
  /\ nth_error KB 0 = Some KB_CD001_OP
  /\ mc_code (candidateOf KB_CD001_OP 0) = js "CD001-OP"
  /\ exists tr image_key,
       forallb isPut tr = true
       /\ handleAnalyze toLowerCase atob Date_now request env
          = (tr ++ [AI_llm [] (candidateOf KB_CD001_OP 0)],
             Ok (json (Analysis image_key (candidateOf KB_CD001_OP 0)
                                (defectOf KB_CD001_OP) (orEmpty resp)) 200)).
Proof.
  intros Hb Hdesc Hi Hl.
  split.
  { intros e He. rewrite fallbackScore_ascii by exact He.
    rewrite (toLowerCase_ascii [] eq_refl). unfold fallbackScore.
    repeat match goal with
    | |- context [includes (asciiLower []) (js ?s)] =>
        change (includes (asciiLower []) (js s)) with false
    end.
    rewrite !andb_false_r. reflexivity. }
  split; [reflexivity |]. split; [reflexivity |].
  assert (Hk : keywordFallback toLowerCase [] = Ok (candidateOf KB_CD001_OP 0)).
  { rewrite keywordFallback_ascii by reflexivity. vm_compute. reflexivity. }
  destruct (resolveMatch_no_index env [] Hi) as [_ Hr].
  rewrite Hk in Hr.
  destruct (storeImage_returns env (orEmpty (image_base64 b))
              (sanitizeFileName (orEmpty (filename b))))
    as (tri & image_key & Hs & Hputs).
  exists tri, image_key. split; [exact Hputs |].
  rewrite <- Hdesc in Hr, Hl.
  rewrite (handleAnalyze_resolved request env b tri [] image_key
             (candidateOf KB_CD001_OP 0) KB_CD001_OP Hb Hs Hr);
    [| vm_compute; reflexivity].
  rewrite Hl, Hdesc. reflexivity.
Qed.

End WorkerFacts.

(** * The theorems at concrete inputs

    The runtime is instantiated with the ASCII lower-casing and the
    forgiving base64 decoder, the clock with a fixed reading. *)

Lemma asciiLower_agrees :
  forall s, isAscii s = true -> asciiLower s = asciiLower s.
Proof. intros s _. reflexivity. Defined.

(** Off the catalog the expression of lines 279-281 is not the sum: on an
    entry that is CD004-AD and whose text mentions "orange", the first rule
    decides the conditional and the adhesion rule is never added. *)
Remark fallbackScore_not_additive_off_catalog :
  fallbackScore asciiLower (js "orange peel with poor adhesion") hybridEntry
  = 2%Z
  /\ additiveScore asciiLower (js "orange peel with poor adhesion") hybridEntry
     = 4%Z.
Proof. split; vm_compute; reflexivity. Qed.

Lemma fallbackScore_is_sum_of_rules_witness :
  In KB_CD004_AD KB
  /\ fallbackScore asciiLower (js "tape test failed, some orange peel")
                   KB_CD004_AD
     = additiveScore asciiLower (js "tape test failed, some orange peel")
                     KB_CD004_AD.
Proof.
  assert (H : In KB_CD004_AD KB) by (do 3 right; left; reflexivity).
  split; [exact H |].
  apply (fallbackScore_is_sum_of_rules asciiLower asciiLower_agrees); exact H.
Defined.

(** A tie at the top: CD001-OP and CD004-AD both score 2 and the entry
    declared first is selected. *)
Example tie_goes_to_the_earlier_entry :
  fallbackScore asciiLower (js "orange peel, failed tape test") KB_CD001_OP
  = 2%Z
  /\ fallbackScore asciiLower (js "orange peel, failed tape test") KB_CD004_AD
     = 2%Z
  /\ keywordFallback asciiLower (js "Orange peel, failed TAPE test")
     = Ok (candidateOf KB_CD001_OP 2).
Proof. repeat split; vm_compute; reflexivity. Qed.

Lemma fallback_selects_first_maximum_witness :
  exists top,
    keywordFallback asciiLower (js "Orange peel, failed TAPE test")
    = Ok (candidateOf top
            (fallbackScore asciiLower
               (asciiLower (js "Orange peel, failed TAPE test")) top))
    /\ firstMaximum
         (fallbackScore asciiLower
            (asciiLower (js "Orange peel, failed TAPE test"))) KB top
    /\ (forall e, In e KB ->
          (fallbackScore asciiLower
             (asciiLower (js "Orange peel, failed TAPE test")) e
           <= fallbackScore asciiLower
                (asciiLower (js "Orange peel, failed TAPE test")) top)%Z)
    /\ (forall e i j,
          nth_error KB i = Some e -> nth_error KB j = Some top ->
          fallbackScore asciiLower
            (asciiLower (js "Orange peel, failed TAPE test")) e
          = fallbackScore asciiLower
              (asciiLower (js "Orange peel, failed TAPE test")) top ->
          (j <= i)%nat).
Proof.
  exact (fallback_selects_first_maximum asciiLower
           (js "Orange peel, failed TAPE test")).
Defined.

Lemma short_chat_message_is_not_analyzed_witness :
  (List.length (trim (orEmpty (message (saying "ab")))) < 3)%nat
  /\ handleChat asciiLower forgivingBase64Decode clock
       (post "/api/chat" (saying "ab")) (envNoIndex workingAi)
     = ([], Ok (json (Reply clarifyingPrompt) 200)).
Proof.
  assert (H : (List.length (trim (orEmpty (message (saying "ab")))) < 3)%nat)
    by (vm_compute; lia).
  split; [exact H |].
  apply (short_chat_message_is_not_analyzed asciiLower forgivingBase64Decode
           clock (post "/api/chat" (saying "ab")) (envNoIndex workingAi)
           (saying "ab")); [reflexivity | exact H].
Defined.

Lemma seed_without_index_is_500_witness :
  VECTORIZE_INDEX (envNoIndex workingAi) = None
  /\ handleSeed (envNoIndex workingAi)
     = ([], Ok (json (OkFalse (js "VECTORIZE_INDEX binding missing")) 500))
  /\ fetch asciiLower forgivingBase64Decode clock seedRequest
       (envNoIndex workingAi)
     = ([], Ok (json (OkFalse (js "VECTORIZE_INDEX binding missing")) 500)).
Proof.
  split; [reflexivity |].
  apply (seed_without_index_is_500 asciiLower forgivingBase64Decode clock
           seedRequest (envNoIndex workingAi)); reflexivity.
Defined.

(** C1, the claim as stated, fails: with the embedding model down and an
    index configured, the analyze request is answered 500 with [ok:false];
    no fallback match and no rationale are produced. *)
Lemma embedding_error_counterexample :
  VECTORIZE_INDEX (envWithIndex embeddingDownAi (indexAnswering []))
  = Some (indexAnswering [])
  /\ run_embedding embeddingDownAi [js "orange peel defect"]
     = Throw (js "embedding service unavailable")
  /\ handleAnalyze asciiLower forgivingBase64Decode clock orangePeelRequest
       (envWithIndex embeddingDownAi (indexAnswering []))
     = ([AI_embed [js "orange peel defect"]],
        Throw (js "embedding service unavailable"))
  /\ fetch asciiLower forgivingBase64Decode clock orangePeelRequest
       (envWithIndex embeddingDownAi (indexAnswering []))
     = ([AI_embed [js "orange peel defect"]],
        Ok (json (OkFalse (js "embedding service unavailable")) 500)).
Proof. repeat split; vm_compute; reflexivity. Qed.

Lemma index_error_fails_the_request_witness :
  snd (resolveMatch asciiLower (envWithIndex workingAi queryDownIndex)
         (js "orange peel defect"))
  = Throw (js "vector index timed out")
  /\ snd (handleAnalyze asciiLower forgivingBase64Decode clock
            orangePeelRequest (envWithIndex workingAi queryDownIndex))
     = Throw (js "vector index timed out")
  /\ existsb isLlm
       (fst (handleAnalyze asciiLower forgivingBase64Decode clock
               orangePeelRequest (envWithIndex workingAi queryDownIndex)))
     = false
  /\ snd (fetch asciiLower forgivingBase64Decode clock orangePeelRequest
            (envWithIndex workingAi queryDownIndex))
     = Ok (json (OkFalse (js "vector index timed out")) 500).
Proof.
  apply (index_error_fails_the_request asciiLower forgivingBase64Decode clock
           orangePeelRequest (envWithIndex workingAi queryDownIndex)
           (describing "orange peel defect") queryDownIndex
           (js "vector index timed out"));
    try reflexivity.
  right. exists sampleVector, []. split; reflexivity.
Defined.

(** C3, the claim as stated, fails: with the rationale model raising, the
    analyze request is answered 500 with [ok:false], not 200 with an empty
    rationale. *)
Lemma rationale_error_counterexample :
  run_llm llmDownAi (js "orange peel defect") (candidateOf KB_CD001_OP 2)
  = Throw (js "model timed out")
  /\ handleAnalyze asciiLower forgivingBase64Decode clock orangePeelRequest
       (envNoIndex llmDownAi)
     = ([AI_llm (js "orange peel defect") (candidateOf KB_CD001_OP 2)],
        Throw (js "model timed out"))
  /\ fetch asciiLower forgivingBase64Decode clock orangePeelRequest
       (envNoIndex llmDownAi)
     = ([AI_llm (js "orange peel defect") (candidateOf KB_CD001_OP 2)],
        Ok (json (OkFalse (js "model timed out")) 500)).
Proof. repeat split; vm_compute; reflexivity. Qed.

Lemma rationale_outcome_decides_the_response_witness :
  snd (handleAnalyze asciiLower forgivingBase64Decode clock orangePeelRequest
         (envNoIndex llmDownAi))
  = Throw (js "model timed out")
  /\ snd (fetch asciiLower forgivingBase64Decode clock orangePeelRequest
            (envNoIndex llmDownAi))
     = Ok (json (OkFalse (js "model timed out")) 500).
Proof.
  apply (rationale_outcome_decides_the_response asciiLower
           forgivingBase64Decode clock orangePeelRequest
           (envNoIndex llmDownAi) (describing "orange peel defect") []
           (candidateOf KB_CD001_OP 2));
    vm_compute; reflexivity.
Defined.

(** C4, the claim as stated, fails on the vector path: a match whose
    metadata carries a code that is not in the catalog is returned as
    [best_match] with that code, next to the first entry as [defect]. *)
Lemma stale_code_counterexample :
  handleAnalyze asciiLower forgivingBase64Decode clock orangePeelRequest
    (envWithIndex workingAi (indexAnswering [staleMatch]))
  = ([AI_embed [js "orange peel defect"]; Vectorize_query sampleVector;
      AI_llm (js "orange peel defect") staleCandidate],
     Ok (json (Analysis None staleCandidate (defectOf KB_CD001_OP) adviceText)
              200))
  /\ mc_code staleCandidate = js "CD999-XX"
  /\ findSop (mc_code staleCandidate) = None
  /\ ~ In (mc_code staleCandidate) (map code KB).
Proof.
  split; [vm_compute; reflexivity |].
  split; [reflexivity |].
  split; [vm_compute; reflexivity |].
  intros H. vm_compute in H.
  repeat (destruct H as [H | H]; [discriminate H |]).
  exact H.
Qed.

Lemma analysis_defect_is_a_catalog_entry_witness :
  exists tr' image_key defect,
    handleAnalyze asciiLower forgivingBase64Decode clock orangePeelRequest
      (envWithIndex workingAi (indexAnswering [staleMatch]))
    = (tr', Ok (json (Analysis image_key staleCandidate (defectOf defect)
                               (orEmpty (Some adviceText))) 200))
    /\ In defect KB
    /\ (forall e, In e KB -> code e = code defect -> e = defect)
    /\ (findSop (mc_code staleCandidate) = Some defect
        \/ findSop (mc_code staleCandidate) = None /\ defect = KB_CD001_OP)
    /\ (snd (vectorizeMatch
               (envWithIndex workingAi (indexAnswering [staleMatch]))
               (orEmpty (description (describing "orange peel defect"))))
        = Ok (Some staleCandidate)
        \/ snd (vectorizeMatch
                  (envWithIndex workingAi (indexAnswering [staleMatch]))
                  (orEmpty (description (describing "orange peel defect"))))
           = Ok None
           /\ mc_code staleCandidate = code defect).
Proof.
  apply (analysis_defect_is_a_catalog_entry asciiLower forgivingBase64Decode
           clock orangePeelRequest
           (envWithIndex workingAi (indexAnswering [staleMatch]))
           (describing "orange peel defect")
           [AI_embed [js "orange peel defect"]; Vectorize_query sampleVector]
           staleCandidate (Some adviceText));
    vm_compute; reflexivity.
Defined.

Lemma orange_peel_defect_matches_CD001_witness :
  mc_code (candidateOf KB_CD001_OP 2) = js "CD001-OP"
  /\ vectorizeMatch (envNoIndex workingAi) (js "orange peel defect")
     = ([], Ok None)
  /\ keywordFallback asciiLower (js "orange peel defect")
     = Ok (candidateOf KB_CD001_OP 2)
  /\ exists tr image_key,
       forallb isPut tr = true
       /\ handleAnalyze asciiLower forgivingBase64Decode clock
            orangePeelRequest (envNoIndex workingAi)
          = (tr ++ [AI_llm (js "orange peel defect")
                           (candidateOf KB_CD001_OP 2)],
             Ok (json (Analysis image_key (candidateOf KB_CD001_OP 2)
                                (defectOf KB_CD001_OP)
                                (orEmpty (Some adviceText))) 200)).
Proof.
  apply (orange_peel_defect_matches_CD001 asciiLower forgivingBase64Decode
           clock asciiLower_agrees orangePeelRequest (envNoIndex workingAi)
           (describing "orange peel defect") (Some adviceText));
    vm_compute; reflexivity.
Defined.

Lemma undecodable_image_is_ignored_witness :
  forgivingBase64Decode (stripDataUrlPrefix (js "data:image/jpeg;base64,###"))
  = None
  /\ handleAnalyze asciiLower forgivingBase64Decode clock brokenImageRequest
       (envNoIndex workingAi)
     = handleAnalyze asciiLower forgivingBase64Decode clock
         (withoutImage brokenImageRequest
            (withImage (describing "orange peel defect")
                       (Some (js "data:image/jpeg;base64,###"))))
         (envNoIndex workingAi)
  /\ exists defect,
       resolveDefect (candidateOf KB_CD001_OP 2) = Ok defect
       /\ handleAnalyze asciiLower forgivingBase64Decode clock
            brokenImageRequest (envNoIndex workingAi)
          = ([] ++ [AI_llm (js "orange peel defect")
                           (candidateOf KB_CD001_OP 2)],
             Ok (json (Analysis None (candidateOf KB_CD001_OP 2)
                                (defectOf defect)
                                (orEmpty (Some adviceText))) 200)).
Proof.
  split; [vm_compute; reflexivity |].
  apply (undecodable_image_is_ignored asciiLower forgivingBase64Decode clock
           brokenImageRequest (envNoIndex workingAi)
           (withImage (describing "orange peel defect")
                      (Some (js "data:image/jpeg;base64,###")))
           (js "data:image/jpeg;base64,###") []
           (candidateOf KB_CD001_OP 2) (Some adviceText));
    vm_compute; reflexivity.
Defined.

Lemma missing_description_selects_first_entry_witness :
  (forall e, In e KB -> fallbackScore asciiLower (asciiLower []) e = 0%Z)
  /\ nth_error KB 0 = Some KB_CD001_OP
  /\ mc_code (candidateOf KB_CD001_OP 0) = js "CD001-OP"
  /\ exists tr image_key,
       forallb isPut tr = true
       /\ handleAnalyze asciiLower forgivingBase64Decode clock
            noDescriptionRequest (envNoIndex workingAi)
          = (tr ++ [AI_llm [] (candidateOf KB_CD001_OP 0)],
             Ok (json (Analysis image_key (candidateOf KB_CD001_OP 0)
                                (defectOf KB_CD001_OP)
                                (orEmpty (Some adviceText))) 200)).
Proof.
  apply (missing_description_selects_first_entry asciiLower
           forgivingBase64Decode clock asciiLower_agrees
           noDescriptionRequest (envNoIndex workingAi) emptyBody
           (Some adviceText));
    vm_compute; reflexivity.
Defined.

(** * Further properties *)

(** ** File names and data URLs (lines 34-42) *)

Lemma replaceRuns_units (inRun : bool) (s : jsstring) :
  Forall (fun c => isFileNameUnit c = true) (replaceRuns inRun s).
Proof.
  revert inRun. induction s as [| c cs IH]; intros inRun; simpl.
  - constructor.
  - destruct (isFileNameUnit c) eqn:Hc.
    + constructor; [exact Hc | apply IH].
    + destruct inRun; [apply IH |].
      constructor; [reflexivity | apply IH].
Qed.

Lemma replaceRuns_fixed (s : jsstring) :
  Forall (fun c => isFileNameUnit c = true) s -> replaceRuns false s = s.
Proof.
  induction 1 as [| c cs Hc _ IH]; simpl; [reflexivity |].
  now rewrite Hc, IH.
Qed.

Lemma Forall_firstn_units (n : nat) (s : jsstring) :
  Forall (fun c => isFileNameUnit c = true) s ->
  Forall (fun c => isFileNameUnit c = true) (firstn n s).
Proof.
  intros H. rewrite <- (firstn_skipn n s) in H.
  now apply Forall_app in H.
Qed.

Lemma sanitizeFileName_units (name : jsstring) :
  Forall (fun c => isFileNameUnit c = true) (sanitizeFileName name).
Proof.
  unfold sanitizeFileName, slice0.
  apply Forall_firstn_units, replaceRuns_units.
Qed.

(** X1: A sanitized file name has at most 160 code units, each of them a word
    character, a dot or a hyphen; in particular it holds no slash. *)
Theorem sanitizeFileName_safe (name : jsstring) :
  (List.length (sanitizeFileName name) <= 160)%nat
  /\ Forall (fun c => isFileNameUnit c = true) (sanitizeFileName name)
  /\ ~ In 47%N (sanitizeFileName name).
Proof.
  split; [apply firstn_le_length |].
  split; [apply sanitizeFileName_units |].
  intros Hin. pose proof (sanitizeFileName_units name) as H.
  rewrite Forall_forall in H. specialize (H _ Hin). discriminate H.
Qed.

(** X2: Sanitizing is idempotent: a sanitized name is left as it is. *)
Theorem sanitizeFileName_idempotent (name : jsstring) :
  sanitizeFileName (sanitizeFileName name) = sanitizeFileName name.
Proof.
  unfold sanitizeFileName, slice0.
  rewrite replaceRuns_fixed
    by apply Forall_firstn_units, replaceRuns_units.
  rewrite firstn_firstn. now rewrite Nat.min_id.
Qed.

Lemma sanitizeFileName_no_slash (name : jsstring) :
  existsb isSlash (sanitizeFileName name) = false.
Proof.
  pose proof (sanitizeFileName_units name) as H.
  induction H as [| c cs Hc _ IH]; [reflexivity |].
  simpl. rewrite IH, orb_false_r.
  unfold isSlash. destruct (N.eqb_spec c 47) as [-> |]; [| reflexivity].
  discriminate Hc.
Qed.

(** Only the empty name sanitizes to the empty name: a name made of
    forbidden units becomes an underscore. *)
Lemma sanitizeFileName_empty_iff (name : jsstring) :
  sanitizeFileName name = [] <-> name = [].
Proof.
  split; [| now intros ->].
  unfold sanitizeFileName, slice0.
  destruct name as [| c cs]; [reflexivity |].
  simpl. destruct (isFileNameUnit c); discriminate.
Qed.

(** X3: Everything up to and including the first comma is dropped: a prefix
    without a comma, a comma and a payload give back the payload, commas of
    the payload included. *)
Theorem stripDataUrlPrefix_payload (prefix payload : jsstring) :
  existsb isComma prefix = false ->
  stripDataUrlPrefix (prefix ++ 44%N :: payload) = payload.
Proof.
  intros H. unfold stripDataUrlPrefix.
  assert (Ha : afterFirstComma (prefix ++ 44%N :: payload) = Some payload).
  { induction prefix as [| c cs IH]; simpl; [reflexivity |].
    simpl in H. apply orb_false_iff in H. destruct H as [Hc Hcs].
    unfold isComma in Hc. rewrite Hc. now apply IH. }
  rewrite Ha. now destruct prefix.
Qed.

(** X4: A string without a comma, the empty one included, is returned as it
    is. *)
Theorem stripDataUrlPrefix_without_comma (s : jsstring) :
  existsb isComma s = false -> stripDataUrlPrefix s = s.
Proof.
  intros H. unfold stripDataUrlPrefix.
  assert (Ha : afterFirstComma s = None).
  { induction s as [| c cs IH]; simpl; [reflexivity |].
    simpl in H. apply orb_false_iff in H. destruct H as [Hc Hcs].
    unfold isComma in Hc. rewrite Hc. now apply IH. }
  rewrite Ha. now destruct s.
Qed.

(** ** Catalog lookup and keyword scores *)

(** X5: Lookup by code finds an entry exactly when it is the catalog entry with
    that code. *)
Theorem findSop_iff (c : jsstring) (e : SopEntry) :
  findSop c = Some e <-> In e KB /\ code e = c.
Proof.
  split.
  - apply findSop_some.
  - intros [Hin <-]. now apply findSop_code.
Qed.

(** X6: Whatever the entry and the description, the expression of lines
    279-281 yields 0 or 2: matching several rules never scores more than
    matching one. *)
Theorem fallbackScore_zero_or_two
    (toLowerCase : jsstring -> jsstring) (t : jsstring) (e : SopEntry) :
  fallbackScore toLowerCase t e = 0%Z \/ fallbackScore toLowerCase t e = 2%Z.
Proof.
  unfold fallbackScore.
  destruct (includes (toLowerCase (text e)) (js "orange")
            && includes t (js "orange peel"));
    destruct (includes (toLowerCase (text e)) (js "pinhole")
              && (includes t (js "pinholes") || includes t (js "crater")));
    simpl; auto.
  destruct (includes t (js "adhesion") || includes t (js "tape test"));
    [destruct (eqb (code e) (js "CD004-AD")) |]; auto.
Qed.

Section FurtherFacts.

Variable toLowerCase : jsstring -> jsstring.
Variable atob : jsstring -> option jsstring.
Variable Date_now : N.

Hypothesis toLowerCase_ascii :
  forall s, isAscii s = true -> toLowerCase s = asciiLower s.

(** X7: The keyword fallback has three outcomes only.  A description that
    mentions adhesion or a tape test and not "orange peel" gives CD004-AD
    with score 2; every other description gives CD001-OP, with score 2 when
    it mentions "orange peel" and 0 otherwise.  Pinholes, streaks and
    sticking are never selected. *)
Theorem keywordFallback_outcomes (description : jsstring) :
  keywordFallback toLowerCase description
  = Ok (if (includes (toLowerCase description) (js "adhesion")
            || includes (toLowerCase description) (js "tape test"))
           && negb (includes (toLowerCase description) (js "orange peel"))
        then candidateOf KB_CD004_AD 2
        else candidateOf KB_CD001_OP
               (if includes (toLowerCase description) (js "orange peel")
                then 2 else 0)).
Proof.
  unfold keywordFallback. cbv zeta.
  rewrite (rankKB_ascii toLowerCase toLowerCase_ascii).
  generalize (toLowerCase description). intros t.
  unfold rankKB, KB, map, fallbackScore.
  destruct (includes t (js "orange peel")),
           (includes t (js "pinholes")),
           (includes t (js "crater")),
           (includes t (js "adhesion")),
           (includes t (js "tape test"));
    vm_compute; reflexivity.
Qed.

(** ** The vector lookup (lines 214-233) *)

(** X8: When the lookup yields nothing (the embedding answer holds no vector, or
    the index answers null, without matches or with none), the keyword
    fallback decides; without a vector the index is not even queried. *)
Theorem resolveMatch_falls_back_when_lookup_is_empty
    (env : Env) (index : VectorizeIndex) (d : jsstring) :
  VECTORIZE_INDEX env = Some index ->
  (run_embedding (AI env) [d] = Ok None
   \/ run_embedding (AI env) [d] = Ok (Some [])) ->
  resolveMatch toLowerCase env d
  = ([AI_embed [d]], keywordFallback toLowerCase d).
Proof.
  intros Hi H.
  unfold resolveMatch, vectorizeMatch, embedTexts, bind, call, ret.
  rewrite Hi. destruct H as [H | H]; rewrite H;
    now destruct (keywordFallback toLowerCase d).
Qed.

(** X9: When the index query answers null, without a matches field or with
    an empty matches array, the keyword fallback decides the match, after
    one embedding call and one query. *)
Theorem resolveMatch_falls_back_when_index_has_no_match
    (env : Env) (index : VectorizeIndex) (d : jsstring)
    (vec : Vector) (rest : list Vector) (results : option QueryResult) :
  VECTORIZE_INDEX env = Some index ->
  run_embedding (AI env) [d] = Ok (Some (vec :: rest)) ->
  query index vec = Ok results ->
  firstMatch results = None ->
  resolveMatch toLowerCase env d
  = ([AI_embed [d]; Vectorize_query vec], keywordFallback toLowerCase d).
Proof.
  intros Hi He Hq Hf.
  unfold resolveMatch, vectorizeMatch, embedTexts, bind, call, ret.
  rewrite Hi, He, Hq, Hf.
  now destruct (keywordFallback toLowerCase d).
Qed.

(** X10: The first match of the index wins, whatever the other matches and
    whatever the keywords say; a match stored without metadata is reported
    under its id, with an empty name and severity "Medium". *)
Theorem resolveMatch_takes_first_index_match
    (env : Env) (index : VectorizeIndex) (d : jsstring)
    (vec : Vector) (rest : list Vector)
    (best : VectorizeMatch) (others : list VectorizeMatch) :
  VECTORIZE_INDEX env = Some index ->
  run_embedding (AI env) [d] = Ok (Some (vec :: rest)) ->
  query index vec = Ok (Some {| matches := Some (best :: others) |}) ->
  exists m,
    resolveMatch toLowerCase env d
    = ([AI_embed [d]; Vectorize_query vec], Ok m)
    /\ mc_score m = Similarity (vm_score best)
    /\ match vm_metadata best with
       | None =>
           mc_code m = vm_id best /\ mc_name m = []
           /\ mc_severity m = js "Medium"
       | Some md =>
           mc_code m = match md_code md with Some c => c | None => vm_id best end
           /\ mc_name m = orEmpty (md_name md)
           /\ mc_severity m
              = match md_severity md with Some s => s | None => js "Medium" end
       end.
Proof.
  intros Hi He Hq.
  unfold resolveMatch, vectorizeMatch, embedTexts, bind, call, ret.
  rewrite Hi, He, Hq. simpl.
  eexists. split; [reflexivity |]. split; [reflexivity |].
  unfold metadataField. destruct (vm_metadata best); simpl; auto.
Qed.

(** X11: The resolution raises nothing of its own: when neither the embedding
    call nor the index query raises, it returns a candidate. *)
Theorem resolveMatch_returns_unless_a_service_raises
    (env : Env) (d : jsstring) :
  (forall e, run_embedding (AI env) [d] <> Throw e) ->
  (forall index vec e,
     VECTORIZE_INDEX env = Some index -> query index vec <> Throw e) ->
  exists tr m, resolveMatch toLowerCase env d = (tr, Ok m).
Proof.
  intros He Hq.
  destruct (keywordFallback_top toLowerCase d) as (top & _ & Hk).
  unfold resolveMatch, vectorizeMatch, embedTexts, bind, call, ret.
  rewrite Hk.
  destruct (VECTORIZE_INDEX env) as [index |] eqn:Hi;
    [| eexists; eexists; reflexivity].
  destruct (run_embedding (AI env) [d]) as [[[| vec rest] |] | e] eqn:Hr;
    try (eexists; eexists; reflexivity);
    [| now destruct (He e)].
  destruct (query index vec) as [results | e] eqn:Hres;
    [| now destruct (Hq index vec e)].
  destruct (firstMatch results); eexists; eexists; reflexivity.
Qed.

(** ** Seeding the index (lines 192-211, 241-245) *)

(** The payload pairs the i-th vector with the i-th entry; entries beyond
    the vectors returned are left out. *)
Lemma seedPayload_pairs_vectors_with_entries
    (vecs : list Vector) (kb : list SopEntry) :
  (List.length vecs <= List.length kb)%nat ->
  seedPayload vecs kb = Ok (map recordOf (combine vecs kb)).
Proof.
  revert kb. induction vecs as [| v vs IH]; intros kb H; [reflexivity |].
  destruct kb as [| k ks]; simpl in H; [lia |].
  simpl. rewrite IH by lia. reflexivity.
Qed.


Lemma combine_records (vecs : list Vector) (kb : list SopEntry) :
  (List.length vecs <= List.length kb)%nat ->
  map vr_id (map recordOf (combine vecs kb))
  = map code (firstn (List.length vecs) kb)
  /\ map vr_values (map recordOf (combine vecs kb)) = vecs.
Proof.
  revert kb. induction vecs as [| v vs IH]; intros kb H; [now split |].
  destruct kb as [| k ks]; simpl in H; [lia |].
  destruct (IH ks ltac:(lia)) as [Hid Hv].
  simpl. now rewrite Hid, Hv.
Qed.


(** X12: A seed embeds the five texts in one call and upserts once: one record
    per vector returned, under the code of the entry at the same position,
    the ids all different; the answer carries the mutation id. *)
Theorem handleSeed_upserts_one_record_per_vector
    (env : Env) (index : VectorizeIndex) (vecs : list Vector) :
  VECTORIZE_INDEX env = Some index ->
  run_embedding (AI env) (map text KB) = Ok (Some vecs) ->
  (List.length vecs <= List.length KB)%nat ->
  handleSeed env
  = ([AI_embed (map text KB);
      Vectorize_upsert (map recordOf (combine vecs KB))],
     match upsert index (map recordOf (combine vecs KB)) with
     | Ok mutationId => Ok (json (Seeded mutationId) 200)
     | Throw e => Throw e
     end)
  /\ map vr_id (map recordOf (combine vecs KB))
     = map code (firstn (List.length vecs) KB)
  /\ map vr_values (map recordOf (combine vecs KB)) = vecs
  /\ NoDup (map vr_id (map recordOf (combine vecs KB))).
Proof.
  intros Hi He Hlen.
  destruct (combine_records vecs KB Hlen) as [Hid Hv].
  split; [| split; [exact Hid | split; [exact Hv |]]].
  - unfold handleSeed, seedKBIntoVectorize, embedTexts, bind, call, ret.
    rewrite Hi, He, (seedPayload_pairs_vectors_with_entries vecs KB Hlen).
    simpl. now destruct (upsert index (map recordOf (combine vecs KB))).
  - rewrite Hid.
    assert (Hnd : NoDup (map code (firstn (List.length vecs) KB ++
                                   skipn (List.length vecs) KB))).
    { rewrite firstn_skipn. exact KB_codes_NoDup. }
    rewrite map_app in Hnd. now apply NoDup_app_remove_r in Hnd.
Qed.

(** X13: An embedding answer without data still upserts, with an empty
    payload. *)
Theorem handleSeed_without_vectors_upserts_nothing
    (env : Env) (index : VectorizeIndex) :
  VECTORIZE_INDEX env = Some index ->
  run_embedding (AI env) (map text KB) = Ok None ->
  handleSeed env
  = ([AI_embed (map text KB); Vectorize_upsert []],
     match upsert index [] with
     | Ok mutationId => Ok (json (Seeded mutationId) 200)
     | Throw e => Throw e
     end).
Proof.
  intros Hi He.
  unfold handleSeed, seedKBIntoVectorize, embedTexts, bind, call, ret.
  rewrite Hi, He. simpl. now destruct (upsert index []).
Qed.


(** ** Uploads (lines 344-366) *)

(** Without a bucket every upload is refused with 500, before the body is
    looked at. *)
Lemma handleUpload_without_bucket (request : Request) (env : Env) :
  DEFECT_IMAGES env = None ->
  handleUpload atob request env
  = ([], Ok (json (ErrorOnly (js "R2 bucket not configured")) 500)).
Proof. intros H. unfold handleUpload. now rewrite H. Qed.

(** X15: A body whose file name is missing or empty, or whose data is missing or
    empty, is refused with 400 and nothing is written. *)
Theorem handleUpload_missing_fields
    (request : Request) (env : Env) (bucket : R2Bucket) (b : Body) :
  DEFECT_IMAGES env = Some bucket ->
  readJsonSafe request = Some b ->
  orEmpty (filename b) = [] \/ orEmpty (data b) = [] ->
  handleUpload atob request env
  = ([], Ok (json (ErrorOnly (js "Missing filename or data")) 400)).
Proof.
  intros Hb Hj H. unfold handleUpload. rewrite Hb, Hj. cbv zeta.
  destruct H as [H | H]; rewrite H.
  - reflexivity.
  - now rewrite orb_true_r.
Qed.

(** X16: Data that [atob] rejects is refused with 400 and nothing is written. *)
Theorem handleUpload_invalid_base64
    (request : Request) (env : Env) (bucket : R2Bucket) (b : Body) :
  DEFECT_IMAGES env = Some bucket ->
  readJsonSafe request = Some b ->
  orEmpty (filename b) <> [] ->
  orEmpty (data b) <> [] ->
  atob (stripDataUrlPrefix (orEmpty (data b))) = None ->
  handleUpload atob request env
  = ([], Ok (json (ErrorOnly (js "Invalid base64 data")) 400)).
Proof.
  intros Hb Hj Hf Hd Ha. rewrite <- sanitizeFileName_empty_iff in Hf.
  unfold handleUpload, decodeBase64ToBytes.
  rewrite Hb, Hj. cbv zeta. rewrite Ha.
  destruct (sanitizeFileName (orEmpty (filename b))); [congruence |].
  destruct (orEmpty (data b)); [congruence |]. reflexivity.
Qed.

(** X17: A complete upload makes one write, under [clients/] followed by the
    sanitized name, of the decoded bytes with the given content type
    (image/jpeg when none is given), and answers 200 with the key; an error
    of the write is raised to the router. *)
Theorem handleUpload_stores_under_clients
    (request : Request) (env : Env) (bucket : R2Bucket) (b : Body)
    (bin : jsstring) :
  DEFECT_IMAGES env = Some bucket ->
  readJsonSafe request = Some b ->
  orEmpty (filename b) <> [] ->
  orEmpty (data b) <> [] ->
  atob (stripDataUrlPrefix (orEmpty (data b))) = Some bin ->
  handleUpload atob request env
  = ([R2_put (js "clients/" ++ sanitizeFileName (orEmpty (filename b)))
             (map (fun c => (c mod 256)%N) bin)
             (orElse (orEmpty (contentType b)) (js "image/jpeg"))],
     match put bucket
             (js "clients/" ++ sanitizeFileName (orEmpty (filename b)))
             (map (fun c => (c mod 256)%N) bin)
             (orElse (orEmpty (contentType b)) (js "image/jpeg")) with
     | Ok _ =>
         Ok (json (Uploaded (js "clients/"
                             ++ sanitizeFileName (orEmpty (filename b)))) 200)
     | Throw e => Throw e
     end).
Proof.
  intros Hb Hj Hf Hd Ha. rewrite <- sanitizeFileName_empty_iff in Hf.
  unfold handleUpload, decodeBase64ToBytes.
  rewrite Hb, Hj. cbv zeta. rewrite Ha.
  destruct (sanitizeFileName (orEmpty (filename b))) as [| c cs] eqn:Hs;
    [congruence |].
  destruct (orEmpty (data b)); [congruence |].
  simpl negb. simpl orb. cbv iota. simpl option_map. cbv iota.
  unfold bind, call, ret.
  now destruct (put bucket _ _ _).
Qed.

(** X18: Whatever the request, an upload never writes outside [clients/]: every
    external call it makes is a write whose key is [clients/] followed by a
    name without a slash. *)
Theorem handleUpload_writes_only_under_clients
    (request : Request) (env : Env) (ev : Event) :
  In ev (fst (handleUpload atob request env)) ->
  exists fileName bytes type,
    ev = R2_put (js "clients/" ++ fileName) bytes type
    /\ fileName <> []
    /\ existsb isSlash fileName = false.
Proof.
  unfold handleUpload, decodeBase64ToBytes.
  destruct (DEFECT_IMAGES env) as [bucket |]; [| intros []].
  destruct (readJsonSafe request) as [b |]; [| intros []].
  cbv zeta.
  destruct (sanitizeFileName (orEmpty (filename b))) as [| c cs] eqn:Hs;
    [intros [] |].
  destruct (orEmpty (data b)) as [| c' cs'] eqn:Hd; [intros [] |].
  simpl negb. simpl orb. cbv iota.
  destruct (atob (stripDataUrlPrefix (c' :: cs'))) as [bin |];
    [| intros []].
  simpl option_map. cbv iota. unfold bind, call, ret.
  destruct (put bucket _ _ _); simpl; intros [<- | []];
    (eexists; eexists; eexists; split; [reflexivity |];
     split; [discriminate |];
     rewrite <- Hs; apply sanitizeFileName_no_slash).
Qed.

(** ** The image of an analyze request (lines 256-268) *)

(** X19: The image step never raises, makes at most one write, and reports a key
    exactly when a bucket is bound, the image field is not empty and
    [atob] accepts the payload: the key is [uploads/], the clock reading, an
    underscore and the sanitized name ([defect.jpg] without a name).  The
    key is reported whether or not the write succeeded. *)
Theorem storeImage_reports_key_iff_decoded
    (env : Env) (image_b64 filenameIn : jsstring) :
  snd (storeImage atob Date_now env image_b64 filenameIn)
  = Ok (match DEFECT_IMAGES env, truthy image_b64,
              atob (stripDataUrlPrefix image_b64) with
        | Some _, true, Some _ =>
            Some (js "uploads/" ++ ofN Date_now ++ js "_"
                  ++ orElse filenameIn (js "defect.jpg"))
        | _, _, _ => None
        end)
  /\ (List.length (fst (storeImage atob Date_now env image_b64 filenameIn))
      <= 1)%nat.
Proof.
  unfold storeImage, decodeBase64ToBytes.
  destruct (DEFECT_IMAGES env) as [bucket |]; [| split; [reflexivity | simpl; lia]].
  destruct (truthy image_b64); [| split; [reflexivity | simpl; lia]].
  destruct (atob (stripDataUrlPrefix image_b64)) as [bin |];
    [| split; [reflexivity | simpl; lia]].
  simpl option_map. cbv iota zeta. unfold tryCatch, bind, call, ret.
  destruct (put bucket _ _ _); split; simpl; try reflexivity; lia.
Qed.

(** X20: A failing write does not fail the analysis, and the response still
    names the key: with a bucket bound and a decodable image, whatever the
    write does, the response is 200 with the upload key, once the resolution
    and the rationale call return. *)
Theorem handleAnalyze_keeps_key_when_write_fails
    (request : Request) (env : Env) (bucket : R2Bucket) (b : Body)
    (img bin : jsstring) (tr : list Event) (best_match : MatchCandidate)
    (resp : option jsstring) :
  readJsonSafe request = Some b ->
  DEFECT_IMAGES env = Some bucket ->
  image_base64 b = Some img ->
  img <> [] ->
  atob (stripDataUrlPrefix img) = Some bin ->
  resolveMatch toLowerCase env (orEmpty (description b)) = (tr, Ok best_match) ->
  run_llm (AI env) (orEmpty (description b)) best_match = Ok resp ->
  exists defect,
    handleAnalyze toLowerCase atob Date_now request env
    = (R2_put (js "uploads/" ++ ofN Date_now ++ js "_"
               ++ orElse (sanitizeFileName (orEmpty (filename b)))
                         (js "defect.jpg"))
              (map (fun c => (c mod 256)%N) bin) (js "image/jpeg")
         :: tr ++ [AI_llm (orEmpty (description b)) best_match],
       Ok (json (Analysis
                   (Some (js "uploads/" ++ ofN Date_now ++ js "_"
                          ++ orElse (sanitizeFileName (orEmpty (filename b)))
                                    (js "defect.jpg")))
                   best_match (defectOf defect) (orEmpty resp)) 200)).
Proof.
  intros Hb Hbucket Himg Hne Ha Hr Hl.
  destruct (resolveDefect_returns best_match) as (defect & Hd & _).
  exists defect.
  assert (Hs : storeImage atob Date_now env (orEmpty (image_base64 b))
                 (sanitizeFileName (orEmpty (filename b)))
               = ([R2_put (js "uploads/" ++ ofN Date_now ++ js "_"
                           ++ orElse (sanitizeFileName (orEmpty (filename b)))
                                     (js "defect.jpg"))
                          (map (fun c => (c mod 256)%N) bin) (js "image/jpeg")],
                  Ok (Some (js "uploads/" ++ ofN Date_now ++ js "_"
                            ++ orElse (sanitizeFileName (orEmpty (filename b)))
                                      (js "defect.jpg"))))).
  { unfold storeImage, decodeBase64ToBytes. rewrite Hbucket, Himg.
    simpl orEmpty. rewrite Ha.
    destruct img; [congruence |].
    simpl truthy. cbv iota. simpl option_map. cbv iota zeta.
    unfold tryCatch, bind, call, ret.
    now destruct (put bucket _ _ _). }
  rewrite (handleAnalyze_resolved toLowerCase atob Date_now request env b
             _ tr _ best_match defect Hb Hs Hr Hd).
  now rewrite Hl.
Qed.

(** ** Malformed bodies *)


(** ** The router (lines 370-405) *)

(** X22: The router never raises: whatever a handler throws becomes a
    response. *)
Theorem fetch_never_raises (request : Request) (env : Env) :
  exists tr response,
    fetch toLowerCase atob Date_now request env = (tr, Ok response).
Proof.
  unfold fetch.
  destruct (eqb (method request) (js "OPTIONS")).
  - eexists; eexists; reflexivity.
  - destruct (route toLowerCase atob Date_now request env) as [t [r | e]];
      eexists; eexists; reflexivity.
Qed.

(** What a handler raises is answered with 500 and the error's message,
    after the calls already made. *)
Lemma fetch_turns_errors_into_500
    (request : Request) (env : Env) (tr : list Event) (e : jsstring) :
  method request <> js "OPTIONS" ->
  route toLowerCase atob Date_now request env = (tr, Throw e) ->
  fetch toLowerCase atob Date_now request env
  = (tr, Ok (json (OkFalse e) 500)).
Proof.
  intros Hm Hr. unfold fetch.
  destruct (eqb (method request) (js "OPTIONS")) eqn:Ho.
  - apply eqb_eq in Ho. contradiction.
  - rewrite Hr. simpl. now rewrite app_nil_r.
Qed.

(** A preflight request is answered 204 on every path, without any
    external call. *)
Lemma fetch_options_is_204 (request : Request) (env : Env) :
  method request = js "OPTIONS" ->
  fetch toLowerCase atob Date_now request env
  = ([], Ok {| status := 204; body := NoContent |}).
Proof. intros H. unfold fetch. now rewrite H. Qed.

(** X23: Anything that is not a preflight and not one of the five routes, a known
    path with another method included, is answered 404 without any external
    call. *)
Theorem fetch_unknown_route_is_404 (request : Request) (env : Env) :
  method request <> js "OPTIONS" ->
  isRoute request = false ->
  fetch toLowerCase atob Date_now request env
  = ([], Ok {| status := 404; body := PlainText (js "Not found") |}).
Proof.
  intros Hm Hr. unfold fetch.
  destruct (eqb (method request) (js "OPTIONS")) eqn:Ho.
  - apply eqb_eq in Ho. contradiction.
  - unfold isRoute in Hr. unfold route.
    repeat (apply orb_false_iff in Hr; destruct Hr as [Hr ?]).
    repeat match goal with
    | H : _ && _ = false |- _ => rewrite H; clear H
    end.
    reflexivity.
Qed.

(** ** Which services a request touches *)

Lemma bind_trace {A B} (P : Event -> bool) (m : M A) (f : A -> M B) :
  forallb P (fst m) = true ->
  (forall a, forallb P (fst (f a)) = true) ->
  forallb P (fst (bind m f)) = true.
Proof.
  intros Hm Hf. unfold bind. destruct m as [t [a | e]]; simpl in *.
  - specialize (Hf a). destruct (f a) as [t' r]. simpl in *.
    rewrite forallb_app. now rewrite Hm, Hf.
  - exact Hm.
Qed.

Lemma forallb_weaken (P Q : Event -> bool) (tr : list Event) :
  (forall ev, P ev = true -> Q ev = true) ->
  forallb P tr = true -> forallb Q tr = true.
Proof.
  intros HPQ H. rewrite forallb_forall in *. auto.
Qed.

Lemma resolveMatch_reads (env : Env) (d : jsstring) :
  forallb isRead (fst (resolveMatch toLowerCase env d)) = true.
Proof.
  unfold resolveMatch. apply bind_trace.
  - unfold vectorizeMatch, embedTexts, bind, call, ret.
    destruct (VECTORIZE_INDEX env) as [index |]; [| reflexivity].
    destruct (run_embedding (AI env) [d]) as [[[| vec rest] |] | e];
      try reflexivity.
    destruct (query index vec) as [results | e]; [| reflexivity].
    destruct (firstMatch results); reflexivity.
  - intros [m |]; reflexivity.
Qed.

Lemma handleAnalyze_trace (P : Event -> bool) (request : Request) (env : Env) :
  (forall ev, isRead ev = true -> P ev = true) ->
  (forall b, readJsonSafe request = Some b ->
     forallb P (fst (storeImage atob Date_now env (orEmpty (image_base64 b))
                       (sanitizeFileName (orEmpty (filename b))))) = true) ->
  forallb P (fst (handleAnalyze toLowerCase atob Date_now request env)) = true.
Proof.
  intros HP Hs. unfold handleAnalyze.
  destruct (readJsonSafe request) as [b |]; [| reflexivity].
  cbv zeta. apply bind_trace; [now apply Hs |]. intros image_key.
  apply bind_trace.
  { apply (forallb_weaken isRead P); [exact HP | apply resolveMatch_reads]. }
  intros best_match. apply bind_trace; [reflexivity |]. intros defect.
  apply bind_trace; [| reflexivity].
  rewrite llmRationale_outcome. simpl. now rewrite HP.
Qed.

(** An analysis reads from the model and the index and may write one image;
    it never writes to the index. *)
Lemma handleAnalyze_reads_or_puts (request : Request) (env : Env) :
  forallb (fun ev => isRead ev || isPut ev)
          (fst (handleAnalyze toLowerCase atob Date_now request env)) = true.
Proof.
  apply handleAnalyze_trace.
  - intros ev H. now rewrite H.
  - intros b _.
    destruct (storeImage_returns atob Date_now env
                (orEmpty (image_base64 b))
                (sanitizeFileName (orEmpty (filename b))))
      as (tr & image_key & Hs & Hputs).
    rewrite Hs. simpl.
    apply (forallb_weaken isPut); [| exact Hputs].
    intros ev H. now rewrite H, orb_true_r.
Qed.

Lemma handleChat_trace (P : Event -> bool) (request : Request) (env : Env) :
  (forall ev, isRead ev = true -> P ev = true) ->
  forallb P (fst (handleChat toLowerCase atob Date_now request env)) = true.
Proof.
  intros HP. unfold handleChat.
  destruct (readJsonSafe request) as [b |]; [| reflexivity].
  cbv zeta.
  destruct (negb (truthy (trim (orEmpty (message b))))
            || (List.length (trim (orEmpty (message b))) <? 3)%nat);
    [reflexivity |].
  apply bind_trace.
  - apply handleAnalyze_trace; [exact HP |].
    intros b' Hb'. injection Hb' as <-. simpl orEmpty.
    now rewrite storeImage_no_image.
  - intros analyzeRes. destruct (body analyzeRes); reflexivity.
Qed.

Lemma forallb_excludes (P Q : Event -> bool) (tr : list Event) :
  (forall ev, P ev = true -> Q ev = false) ->
  forallb P tr = true -> existsb Q tr = false.
Proof.
  intros HPQ H. induction tr as [| ev tr IH]; [reflexivity |].
  simpl in *. apply andb_true_iff in H. destruct H as [Hev Htr].
  now rewrite (HPQ ev Hev), (IH Htr).
Qed.

(** X25: A chat request only reads: whatever the message, every call it makes is
    an embedding, an index query or a rationale call; it stores no image
    and writes nothing to the index. *)
Theorem handleChat_only_reads (request : Request) (env : Env) :
  forallb isRead (fst (handleChat toLowerCase atob Date_now request env))
  = true
  /\ existsb isPut (fst (handleChat toLowerCase atob Date_now request env))
     = false
  /\ existsb isUpsert (fst (handleChat toLowerCase atob Date_now request env))
     = false.
Proof.
  pose proof (handleChat_trace isRead request env (fun ev H => H)) as H.
  split; [exact H |].
  split; apply (forallb_excludes isRead); try exact H;
    intros ev Hev; destruct ev; try reflexivity; discriminate Hev.
Qed.

(** X24: Only the seed route writes to the index: on every other path no request
    causes an upsert. *)
Theorem only_seed_upserts (request : Request) (env : Env) :
  pathname request <> js "/api/seed" ->
  existsb isUpsert (fst (fetch toLowerCase atob Date_now request env)) = false.
Proof.
  intros Hp.
  assert (Hall : forallb (fun ev => negb (isUpsert ev))
                   (fst (fetch toLowerCase atob Date_now request env)) = true).
  { unfold fetch.
    destruct (eqb (method request) (js "OPTIONS")); [reflexivity |].
    assert (Hr : forallb (fun ev => negb (isUpsert ev))
                   (fst (route toLowerCase atob Date_now request env)) = true).
    { unfold route.
      destruct (eqb (pathname request) (js "/api/seed")) eqn:Hs.
      { apply eqb_eq in Hs. contradiction. }
      cbn [andb].
      repeat match goal with
      | |- context [if ?c then _ else _] => destruct c
      end; try reflexivity.
      - apply (forallb_weaken (fun ev => isRead ev || isPut ev));
          [| apply handleAnalyze_reads_or_puts].
        now intros [] H.
      - apply handleChat_trace. now intros [] H.
      - unfold handleUpload.
        destruct (DEFECT_IMAGES env) as [bucket |]; [| reflexivity].
        destruct (readJsonSafe request) as [b |]; [| reflexivity].
        cbv zeta.
        destruct (negb (truthy (sanitizeFileName (orEmpty (filename b))))
                  || negb (truthy (orEmpty (data b)))); [reflexivity |].
        destruct (decodeBase64ToBytes atob
                    (stripDataUrlPrefix (orEmpty (data b))));
          [| reflexivity].
        unfold bind, call, ret. now destruct (put bucket _ _ _). }
    destruct (route toLowerCase atob Date_now request env) as [t [r | e]];
      simpl in *; [exact Hr | now rewrite app_nil_r]. }
  induction (fst (fetch toLowerCase atob Date_now request env))
    as [| ev tr IH]; [reflexivity |].
  simpl in *. apply andb_true_iff in Hall. destruct Hall as [Hev Htr].
  rewrite (IH Htr), orb_false_r. now destruct (isUpsert ev).
Qed.

(** ** Chat (lines 306-342) *)

Lemma chat_message_long_enough (m : jsstring) :
  (3 <= List.length m)%nat ->
  negb (truthy m) || (List.length m <? 3)%nat = false.
Proof.
  intros H. destruct m as [| c cs]; simpl in H; [lia |].
  simpl truthy. simpl negb. simpl orb. apply Nat.ltb_ge. exact H.
Qed.

(** X26: A message of at least three units after trimming is analyzed as the
    description, trimmed, of a request without image; when the resolution
    and the rationale call return, the reply is the text built from the
    match, the resolved entry and the rationale, with status 200, after
    exactly the calls of the analysis. *)
Theorem handleChat_replies_from_the_analysis
    (request : Request) (env : Env) (b : Body) (tr : list Event)
    (best_match : MatchCandidate) (resp : option jsstring) :
  readJsonSafe request = Some b ->
  (3 <= List.length (trim (orEmpty (message b))))%nat ->
  resolveMatch toLowerCase env (trim (orEmpty (message b)))
  = (tr, Ok best_match) ->
  run_llm (AI env) (trim (orEmpty (message b))) best_match = Ok resp ->
  exists defect,
    resolveDefect best_match = Ok defect
    /\ handleChat toLowerCase atob Date_now request env
       = (tr ++ [AI_llm (trim (orEmpty (message b))) best_match],
          Ok (json (Reply (chatReply (Some best_match)
                                     (Some (defectOf defect))
                                     (orEmpty resp))) 200)).
Proof.
  intros Hb Hlen Hr Hl.
  destruct (resolveDefect_returns best_match) as (defect & Hd & _).
  exists defect. split; [exact Hd |].
  pose proof (handleAnalyze_resolved toLowerCase atob Date_now
                (chatAnalyzeRequest (trim (orEmpty (message b)))) env
                _ [] tr None best_match defect eq_refl
                (storeImage_no_image atob Date_now env _) Hr Hd) as Ha.
  simpl orEmpty in Ha. rewrite Hl in Ha. simpl app in Ha.
  unfold chatAnalyzeRequest in Ha.
  unfold handleChat. rewrite Hb. cbv zeta.
  rewrite (chat_message_long_enough _ Hlen), Ha.
  simpl. now rewrite app_nil_r.
Qed.

(** X27: When the analysis raises, the chat handler raises the same error and the
    router answers 500 with [ok:false]. *)
Theorem handleChat_analysis_error_is_500
    (request : Request) (env : Env) (b : Body) (tr : list Event)
    (e : jsstring) :
  method request = js "POST" ->
  pathname request = js "/api/chat" ->
  readJsonSafe request = Some b ->
  (3 <= List.length (trim (orEmpty (message b))))%nat ->
  handleAnalyze toLowerCase atob Date_now
    (chatAnalyzeRequest (trim (orEmpty (message b)))) env = (tr, Throw e) ->
  handleChat toLowerCase atob Date_now request env = (tr, Throw e)
  /\ fetch toLowerCase atob Date_now request env
     = (tr, Ok (json (OkFalse e) 500)).
Proof.
  intros Hm Hp Hb Hlen Ha.
  assert (Hc : handleChat toLowerCase atob Date_now request env
               = (tr, Throw e)).
  { unfold chatAnalyzeRequest in Ha. unfold handleChat. rewrite Hb. cbv zeta.
    now rewrite (chat_message_long_enough _ Hlen), Ha. }
  split; [exact Hc |].
  unfold fetch, route. rewrite Hm, Hp. eval_literal_tests. cbn [andb].
  rewrite Hc. simpl. now rewrite app_nil_r.
Qed.



End FurtherFacts.

(** * The further properties at concrete inputs *)

Lemma stripDataUrlPrefix_payload_witness :
  stripDataUrlPrefix (js "data:image/png;base64" ++ 44%N :: js "AAAA,BB")
  = js "AAAA,BB".
Proof.
  pose proof (stripDataUrlPrefix_payload (js "data:image/png;base64")
                (js "AAAA,BB") ltac:(vm_compute; reflexivity)) as W.
  exact W.
Defined.

Lemma stripDataUrlPrefix_without_comma_witness :
  stripDataUrlPrefix (js "aGVsbG8=") = js "aGVsbG8=".
Proof.
  pose proof (stripDataUrlPrefix_without_comma (js "aGVsbG8=")
                ltac:(vm_compute; reflexivity)) as W.
  exact W.
Defined.

Lemma findSop_iff_witness :
  findSop (js "CD003-LN") = Some KB_CD003_LN.
Proof.
  apply (proj2 (findSop_iff (js "CD003-LN") KB_CD003_LN)).
  split; [do 2 right; left; reflexivity | reflexivity].
Defined.

Lemma keywordFallback_outcomes_witness :
  keywordFallback asciiLower (js "Failed TAPE test, craters everywhere")
  = Ok (candidateOf KB_CD004_AD 2).
Proof.
  pose proof (keywordFallback_outcomes asciiLower asciiLower_agrees
                (js "Failed TAPE test, craters everywhere")) as W.
  vm_compute in W. vm_compute. exact W.
Defined.

Lemma resolveMatch_falls_back_when_lookup_is_empty_witness :
  resolveMatch asciiLower (envWithIndex noVectorAi (indexAnswering [staleMatch]))
    (js "orange peel defect")
  = ([AI_embed [js "orange peel defect"]], Ok (candidateOf KB_CD001_OP 2)).
Proof.
  pose proof (resolveMatch_falls_back_when_lookup_is_empty asciiLower
                (envWithIndex noVectorAi (indexAnswering [staleMatch]))
                (indexAnswering [staleMatch]) (js "orange peel defect")
                eq_refl (or_introl eq_refl)) as W.
  vm_compute in W. vm_compute. exact W.
Defined.

Lemma resolveMatch_falls_back_when_index_has_no_match_witness :
  resolveMatch asciiLower (envWithIndex workingAi (indexAnswering []))
    (js "orange peel defect")
  = ([AI_embed [js "orange peel defect"]; Vectorize_query sampleVector],
     Ok (candidateOf KB_CD001_OP 2)).
Proof.
  pose proof (resolveMatch_falls_back_when_index_has_no_match asciiLower
                (envWithIndex workingAi (indexAnswering []))
                (indexAnswering []) (js "orange peel defect")
                sampleVector [] (Some {| matches := Some [] |})
                eq_refl eq_refl eq_refl eq_refl) as W.
  vm_compute in W. vm_compute. exact W.
Defined.

Lemma resolveMatch_takes_first_index_match_witness :
  exists m,
    resolveMatch asciiLower
      (envWithIndex workingAi (indexAnswering [bareMatch; staleMatch]))
      (js "orange peel defect")
    = ([AI_embed [js "orange peel defect"]; Vectorize_query sampleVector],
       Ok m)
    /\ mc_score m = Similarity (js "0.77")
    /\ mc_code m = js "CD003-LN" /\ mc_name m = []
    /\ mc_severity m = js "Medium".
Proof.
  pose proof (resolveMatch_takes_first_index_match asciiLower
                (envWithIndex workingAi (indexAnswering [bareMatch; staleMatch]))
                (indexAnswering [bareMatch; staleMatch])
                (js "orange peel defect") sampleVector [] bareMatch
                [staleMatch] eq_refl eq_refl eq_refl) as W.
  vm_compute in W. vm_compute. exact W.
Defined.

Lemma resolveMatch_returns_unless_a_service_raises_witness :
  exists tr m,
    resolveMatch asciiLower
      (envWithIndex workingAi (indexAnswering [staleMatch]))
      (js "pinholes after baking")
    = (tr, Ok m).
Proof.
  apply (resolveMatch_returns_unless_a_service_raises asciiLower
           (envWithIndex workingAi (indexAnswering [staleMatch]))
           (js "pinholes after baking")).
  - intros e H. discriminate H.
  - intros index vec e Hi H. injection Hi as <-. discriminate H.
Defined.

Lemma handleSeed_upserts_one_record_per_vector_witness :
  handleSeed (envWithIndex workingAi (indexAnswering []))
  = ([AI_embed (map text KB);
      Vectorize_upsert
        (map recordOf (combine (map (fun _ => sampleVector) KB) KB))],
     Ok (json (Seeded (Some (js "mutation-1"))) 200))
  /\ map vr_id (map recordOf (combine (map (fun _ => sampleVector) KB) KB))
     = map code KB.
Proof.
  pose proof (handleSeed_upserts_one_record_per_vector
                (envWithIndex workingAi (indexAnswering []))
                (indexAnswering [])
                (map (fun _ => sampleVector) (map text KB))
                eq_refl eq_refl ltac:(vm_compute; lia)) as W.
  destruct W as (W1 & W2 & _).
  split; [vm_compute in W1; vm_compute; exact W1
         | vm_compute in W2; vm_compute; exact W2].
Defined.

Lemma handleSeed_without_vectors_upserts_nothing_witness :
  handleSeed (envWithIndex noVectorAi (indexAnswering []))
  = ([AI_embed (map text KB); Vectorize_upsert []],
     Ok (json (Seeded (Some (js "mutation-1"))) 200)).
Proof.
  pose proof (handleSeed_without_vectors_upserts_nothing
                (envWithIndex noVectorAi (indexAnswering []))
                (indexAnswering []) eq_refl eq_refl) as W.
  exact W.
Defined.


Lemma handleUpload_missing_fields_witness :
  handleUpload forgivingBase64Decode
    (post "/api/upload" (uploadBody "photo.jpg" "")) (envNoIndex workingAi)
  = ([], Ok (json (ErrorOnly (js "Missing filename or data")) 400)).
Proof.
  apply (handleUpload_missing_fields forgivingBase64Decode
           (post "/api/upload" (uploadBody "photo.jpg" ""))
           (envNoIndex workingAi) workingBucket (uploadBody "photo.jpg" "")
           eq_refl eq_refl (or_intror eq_refl)).
Defined.

Lemma handleUpload_invalid_base64_witness :
  handleUpload forgivingBase64Decode
    (post "/api/upload" (uploadBody "photo.jpg" "###")) (envNoIndex workingAi)
  = ([], Ok (json (ErrorOnly (js "Invalid base64 data")) 400)).
Proof.
  apply (handleUpload_invalid_base64 forgivingBase64Decode
           (post "/api/upload" (uploadBody "photo.jpg" "###"))
           (envNoIndex workingAi) workingBucket (uploadBody "photo.jpg" "###")
           eq_refl eq_refl);
    vm_compute; solve [discriminate | reflexivity].
Defined.

Lemma handleUpload_stores_under_clients_witness :
  handleUpload forgivingBase64Decode helloUpload (envNoIndex workingAi)
  = ([R2_put (js "clients/line_3_photo.jpg") (js "hello") (js "image/jpeg")],
     Ok (json (Uploaded (js "clients/line_3_photo.jpg")) 200)).
Proof.
  pose proof (handleUpload_stores_under_clients forgivingBase64Decode
                helloUpload (envNoIndex workingAi) workingBucket
                (uploadBody "line 3/photo.jpg"
                            "data:image/png;base64,aGVsbG8=")
                (js "hello") eq_refl eq_refl
                ltac:(vm_compute; discriminate)
                ltac:(vm_compute; discriminate)
                ltac:(vm_compute; reflexivity)) as W.
  vm_compute in W. vm_compute. exact W.
Defined.

Lemma handleUpload_writes_only_under_clients_witness :
  exists fileName bytes type,
    R2_put (js "clients/line_3_photo.jpg") (js "hello") (js "image/jpeg")
    = R2_put (js "clients/" ++ fileName) bytes type
    /\ fileName <> []
    /\ existsb isSlash fileName = false.
Proof.
  apply (handleUpload_writes_only_under_clients forgivingBase64Decode
           helloUpload (envNoIndex workingAi)).
  vm_compute. left. reflexivity.
Defined.

Lemma handleAnalyze_keeps_key_when_write_fails_witness :
  exists defect,
    handleAnalyze asciiLower forgivingBase64Decode clock
      (post "/api/analyze" imageBody) envPutDown
    = ([R2_put (js "uploads/1730543000123_line_3_photo.jpg") (js "hello")
               (js "image/jpeg");
        AI_llm (js "orange peel defect") (candidateOf KB_CD001_OP 2)],
       Ok (json (Analysis (Some (js "uploads/1730543000123_line_3_photo.jpg"))
                          (candidateOf KB_CD001_OP 2) (defectOf defect)
                          adviceText) 200)).
Proof.
  pose proof (handleAnalyze_keeps_key_when_write_fails asciiLower
                forgivingBase64Decode clock (post "/api/analyze" imageBody)
                envPutDown putDownBucket imageBody
                (js "data:image/jpeg;base64,aGVsbG8=") (js "hello") []
                (candidateOf KB_CD001_OP 2) (Some adviceText)
                eq_refl eq_refl eq_refl
                ltac:(vm_compute; discriminate)
                ltac:(vm_compute; reflexivity)
                ltac:(vm_compute; reflexivity)
                ltac:(vm_compute; reflexivity)) as W.
  destruct W as [defect W]. exists defect.
  rewrite W. vm_compute. reflexivity.
Defined.


Lemma fetch_unknown_route_is_404_witness :
  fetch asciiLower forgivingBase64Decode clock getAnalyzeRequest
    (envNoIndex workingAi)
  = ([], Ok {| status := 404; body := PlainText (js "Not found") |}).
Proof.
  apply (fetch_unknown_route_is_404 asciiLower forgivingBase64Decode clock
           getAnalyzeRequest (envNoIndex workingAi)).
  - vm_compute. discriminate.
  - vm_compute. reflexivity.
Defined.

Lemma only_seed_upserts_witness :
  existsb isUpsert
    (fst (fetch asciiLower forgivingBase64Decode clock orangePeelRequest
            (envWithIndex workingAi (indexAnswering [staleMatch]))))
  = false.
Proof.
  apply (only_seed_upserts asciiLower forgivingBase64Decode clock
           orangePeelRequest
           (envWithIndex workingAi (indexAnswering [staleMatch]))).
  vm_compute. discriminate.
Defined.

Lemma handleChat_replies_from_the_analysis_witness :
  exists defect,
    resolveDefect (candidateOf KB_CD004_AD 2) = Ok defect
    /\ handleChat asciiLower forgivingBase64Decode clock tapeTestChat
         (envNoIndex workingAi)
       = ([] ++ [AI_llm tapeTestMessage (candidateOf KB_CD004_AD 2)],
          Ok (json (Reply (chatReply (Some (candidateOf KB_CD004_AD 2))
                                     (Some (defectOf defect))
                                     adviceText)) 200)).
Proof.
  pose proof (handleChat_replies_from_the_analysis asciiLower
                forgivingBase64Decode clock tapeTestChat (envNoIndex workingAi)
                (saying "  The lacquer fails the tape test ") []
                (candidateOf KB_CD004_AD 2) (Some adviceText)
                eq_refl
                ltac:(vm_compute; lia)
                ltac:(vm_compute; reflexivity)
                ltac:(vm_compute; reflexivity)) as W.
  destruct W as (defect & Wd & W). exists defect.
  split; [exact Wd |]. rewrite W. vm_compute. reflexivity.
Defined.

Lemma handleChat_analysis_error_is_500_witness :
  handleChat asciiLower forgivingBase64Decode clock tapeTestChat
    (envNoIndex llmDownAi)
  = ([AI_llm tapeTestMessage (candidateOf KB_CD004_AD 2)],
     Throw (js "model timed out"))
  /\ fetch asciiLower forgivingBase64Decode clock tapeTestChat
       (envNoIndex llmDownAi)
     = ([AI_llm tapeTestMessage (candidateOf KB_CD004_AD 2)],
        Ok (json (OkFalse (js "model timed out")) 500)).
Proof.
  apply (handleChat_analysis_error_is_500 asciiLower forgivingBase64Decode
           clock tapeTestChat (envNoIndex llmDownAi)
           (saying "  The lacquer fails the tape test ")
           [AI_llm tapeTestMessage (candidateOf KB_CD004_AD 2)]
           (js "model timed out") eq_refl eq_refl eq_refl
           ltac:(vm_compute; lia)
           ltac:(vm_compute; reflexivity)).
Defined.

